(** * Super Singularity MCP server (src/server.py): payload builders,
      the HTTP adapter and the update-merge path, embedded shallowly.

    Python values that travel as JSON are the inductive [json]; a Python
    [dict] with string keys is a [gmap string json] (Python's [==] on dicts
    ignores insertion order, and so does [gmap] equality).  Effects are
    explicit: every tool is a computation over the chronological list of
    external calls made so far, and either returns or raises.

    A text is the sequence of the UTF-8 bytes of the Python [str], in Rocq's
    8-bit [string].  Comparison with a literal, [replace] of an ASCII pattern
    and the substring test are the same on bytes and on code points.
    [str.upper], [str.lower] and [re.match] depend on the Unicode tables of
    the interpreter: they are functions of the runtime ([pylib]), known here
    on ASCII text only, where they are [upper], [lower] and
    [size_pattern_matches].  JSON numbers are the integers. *)

From stdpp Require Import gmap strings list fin_maps pretty.
From Stdlib Require Import Strings.Ascii Strings.Byte.

#[local] Set Warnings "-register-all".
#[local] Open Scope Z_scope.

(** ** Values *)

Inductive json : Type :=
| JNull
| JBool (b : bool)
| JInt (z : Z)
| JStr (s : string)
| JList (l : list json)
| JObj (m : gmap string json).

Definition type_name (v : json) : string :=
  match v with
  | JNull => "NoneType"
  | JBool _ => "bool"
  | JInt _ => "int"
  | JStr _ => "str"
  | JList _ => "list"
  | JObj _ => "dict"
  end.

(** ** Exceptions and outcomes *)

(** [httpx.HTTPStatusError] keeps the response it was raised for; every
    other exception is its class name and [str(e)]. *)
Inductive exn : Type :=
| HTTPStatusError (msg : string) (status : Z) (body : string)
| PyExc (cls : string) (msg : string).

Definition str_exn (e : exn) : string :=
  match e with
  | HTTPStatusError msg _ _ => msg
  | PyExc _ msg => msg
  end.

Inductive outcome (A : Type) : Type :=
| Ret (a : A)
| Raise (e : exn).
Arguments Ret {A} a.
Arguments Raise {A} e.

(** ** The outside world *)

Record http_request := {
  rq_method : string;
  rq_url : string;
  rq_headers : list (string * string);
  rq_params : list (string * string);
  rq_json : option json;
  rq_timeout : Z
}.

Record response := {
  status_code : Z;
  text : string;
  json_of : outcome json
}.

Inductive event : Type :=
| EvHttp (rq : http_request)
| EvUpload (container blob : string) (data : list byte) (overwrite : bool).

Definition trace := list event.

Definition is_http (ev : event) : bool :=
  match ev with EvHttp _ => true | EvUpload _ _ _ _ => false end.

(** Process-wide configuration, read from the environment at import. *)
Record config := {
  API_BASE_URL : string;
  API_TOKEN : string;
  AZURE_STORAGE_CONNECTION_STRING : string;
  AZURE_CONTAINER_NAME : string;
  AZURE_OPENAI_API_KEY : string;
  AZURE_OPENAI_ENDPOINT : string;
  AZURE_OPENAI_DEPLOYMENT : string;
  AZURE_OPENAI_API_VERSION : string
}.

(** The defaults of [os.getenv] in the source. *)
Definition default_config : config := {|
  API_BASE_URL := "https://your-api-domain.com";
  API_TOKEN := "your-bearer-token-here";
  AZURE_STORAGE_CONNECTION_STRING := "your-azure-connection-string";
  AZURE_CONTAINER_NAME := "audio-files";
  AZURE_OPENAI_API_KEY := "your-azure-openai-api-key";
  AZURE_OPENAI_ENDPOINT := "https://your-resource.cognitiveservices.azure.com";
  AZURE_OPENAI_DEPLOYMENT := "gpt-image-1";
  AZURE_OPENAI_API_VERSION := "2025-04-01-preview"
|}.

(** What the third parties answer.  The network, the blob store, the
    random source and the clock see the calls made so far, so two identical
    requests may be answered differently.  [blob_connect] is
    [BlobServiceClient.from_connection_string], [blob_upload] answers with the
    URL of the blob client, and the [image_] fields are Pillow's
    [Image.open], [mode], [convert] and [save]. *)
Record world := {
  http_send : trace -> http_request -> outcome response;
  blob_connect : string -> outcome unit;
  blob_upload : trace -> string -> string -> list byte -> outcome string;
  image : Type;
  image_open : list byte -> outcome image;
  image_mode : image -> string;
  image_convert : image -> string -> outcome image;
  image_save : image -> string -> Z -> bool -> outcome (list byte);
  uuid4 : trace -> string;
  now_ist_isoformat : trace -> string
}.

(** ** Strings *)

Definition nl : string := String "010"%char EmptyString.
Definition dq : string := String "034"%char EmptyString.

Definition upper_ascii (c : ascii) : ascii :=
  let n := N_of_ascii c in
  if (N.leb 97 n && N.leb n 122)%bool then ascii_of_N (n - 32) else c.

Definition lower_ascii (c : ascii) : ascii :=
  let n := N_of_ascii c in
  if (N.leb 65 n && N.leb n 90)%bool then ascii_of_N (n + 32) else c.

Fixpoint map_string (f : ascii -> ascii) (s : string) : string :=
  match s with
  | EmptyString => EmptyString
  | String c s' => String (f c) (map_string f s')
  end.

(** [s.upper()] and [s.lower()] on ASCII text. *)
Definition upper : string -> string := map_string upper_ascii.
Definition lower : string -> string := map_string lower_ascii.

(** [s.replace(old, new)] for a non-empty [old]: left to right, without
    overlap.  [skip] counts the characters of a match still to be dropped. *)
Fixpoint replace_from (old new : string) (skip : nat) (s : string) : string :=
  match s with
  | EmptyString => EmptyString
  | String c s' =>
      match skip with
      | S k => replace_from old new k s'
      | O =>
          if String.prefix old s
          then new +:+ replace_from old new (String.length old - 1) s'
          else String c (replace_from old new O s')
      end
  end.

Definition replace (old new s : string) : string := replace_from old new O s.

(** The header rule as the specification words it: the text with exactly the
    occurrences of <b>, </b>, <i> and </i> removed, in one pass over the
    text.  It is compared with [strip_markup], the chain of four
    replacements of the source. *)
Fixpoint spec_remove_tags_from (skip : nat) (s : string) : string :=
  match s with
  | EmptyString => EmptyString
  | String c s' =>
      match skip with
      | S k => spec_remove_tags_from k s'
      | O =>
          if (String.prefix "<b>" s || String.prefix "<i>" s)%bool
          then spec_remove_tags_from 2 s'
          else if (String.prefix "</b>" s || String.prefix "</i>" s)%bool
          then spec_remove_tags_from 3 s'
          else String c (spec_remove_tags_from O s')
      end
  end.

Definition spec_remove_tags (s : string) : string := spec_remove_tags_from O s.

(** Well-formed markup: a text that is a sequence of pieces, each one of
    the four tags or a stretch without any <. *)
Fixpoint no_open_bracket (s : string) : bool :=
  match s with
  | EmptyString => true
  | String c s' => negb (bool_decide (c = "<"%char)) && no_open_bracket s'
  end.

Definition markup_tags : list string := ["<b>"; "</b>"; "<i>"; "</i>"].

Definition markup_piece (p : string) : bool :=
  bool_decide (p ∈ markup_tags) || no_open_bracket p.

Definition join (ps : list string) : string := foldr String.append EmptyString ps.

(** [needle in haystack] on two strings. *)
Fixpoint is_substring (needle hay : string) : bool :=
  String.prefix needle hay ||
  match hay with
  | EmptyString => false
  | String _ hay' => is_substring needle hay'
  end.

Definition is_digit (c : ascii) : bool :=
  let n := N_of_ascii c in (N.leb 48 n && N.leb n 57)%bool.

Fixpoint drop_digits (s : string) : string :=
  match s with
  | EmptyString => EmptyString
  | String c s' => if is_digit c then drop_digits s' else s
  end.

Definition starts_with_digit (s : string) : bool :=
  match s with
  | EmptyString => false
  | String c _ => is_digit c
  end.

Definition at_end (s : string) : bool :=
  match s with
  | EmptyString => true
  | String c EmptyString => bool_decide (c = "010"%char)
  | _ => false
  end.

(** [re.match(r'^\d+x\d+$', size)] on ASCII text: digits, an x, digits, then
    the end of the string or a final newline. *)
Definition size_pattern_matches (size : string) : bool :=
  starts_with_digit size &&
  match drop_digits size with
  | String "x"%char r => starts_with_digit r && at_end (drop_digits r)
  | _ => false
  end.

(** A text all of whose characters are ASCII. *)
Fixpoint is_ascii (s : string) : bool :=
  match s with
  | EmptyString => true
  | String c s' => N.ltb (N_of_ascii c) 128 && is_ascii s'
  end.

(** ** The Python runtime *)

(** Library functions of the Python runtime that are used as black boxes:
    [json.dumps(v, indent=2)], [str] of a list or dict inside an f-string,
    [base64.b64decode], the message httpx puts in an HTTPStatusError, and the
    three functions that consult the Unicode tables: [s.upper()],
    [s.lower()] and [re.match(r'^\d+x\d+$', s)], where [\d] is any decimal
    digit of any script.  The last three are pinned down on ASCII text, on
    which they are the functions [upper], [lower] and [size_pattern_matches]
    above; on other text nothing is assumed of them. *)
Record pylib := {
  json_dumps : json -> string;
  container_str : json -> string;
  b64decode : string -> outcome (list byte);
  status_error_message : http_request -> response -> string;
  str_upper : string -> string;
  str_lower : string -> string;
  re_match_size : string -> bool;
  str_upper_ascii : forall s, is_ascii s = true -> str_upper s = upper s;
  str_lower_ascii : forall s, is_ascii s = true -> str_lower s = lower s;
  re_match_size_ascii :
    forall s, is_ascii s = true -> re_match_size s = size_pattern_matches s
}.

(** ** Truthiness of optional arguments *)

(** [if flag:] on an optional flag: [None] and [False] are falsy. *)
Definition truthy_bool (o : option bool) : bool :=
  match o with Some b => b | None => false end.

(** ** Computations *)

Definition M (A : Type) : Type := trace -> outcome A * trace.

Definition ret {A} (a : A) : M A := fun t => (Ret a, t).

Definition raise {A} (e : exn) : M A := fun t => (Raise e, t).

Definition bind {A B} (m : M A) (k : A -> M B) : M B :=
  fun t =>
    match m t with
    | (Ret a, t') => k a t'
    | (Raise e, t') => (Raise e, t')
    end.

(** [try: m  except Exception as e: h e]. *)
Definition try_except {A} (m : M A) (h : exn -> M A) : M A :=
  fun t =>
    match m t with
    | (Ret a, t') => (Ret a, t')
    | (Raise e, t') => h e t'
    end.

Definition lift {A} (o : outcome A) : M A := fun t => (o, t).

Notation "x <- m ;; k" := (bind m (fun x => k))
  (at level 100, m at next level, right associativity).

(** ** Dynamic operations on values *)

Definition type_error {A} (msg : string) : outcome A := Raise (PyExc "TypeError" msg).

(** [k in v] for a string [k]: key of a dict, element of a list, substring
    of a string. *)
Definition py_in (k : string) (v : json) : outcome bool :=
  match v with
  | JObj m => Ret (match m !! k with Some _ => true | None => false end)
  | JList l =>
      Ret (existsb (fun x => match x with JStr s => bool_decide (s = k) | _ => false end) l)
  | JStr s => Ret (is_substring k s)
  | _ => type_error ("argument of type '" +:+ type_name v +:+ "' is not iterable")
  end.

(** [v[k]] for a string [k]. *)
Definition py_getitem (k : string) (v : json) : outcome json :=
  match v with
  | JObj m =>
      match m !! k with
      | Some x => Ret x
      | None => Raise (PyExc "KeyError" ("'" +:+ k +:+ "'"))
      end
  | JList _ => type_error "list indices must be integers or slices, not str"
  | JStr _ => type_error "string indices must be integers, not 'str'"
  | _ => type_error ("'" +:+ type_name v +:+ "' object is not subscriptable")
  end.

(** [v[0]]. *)
Definition py_first (v : json) : outcome json :=
  match v with
  | JList (x :: _) => Ret x
  | JList [] => Raise (PyExc "IndexError" "list index out of range")
  | JStr (String c _) => Ret (JStr (String c EmptyString))
  | JStr EmptyString => Raise (PyExc "IndexError" "string index out of range")
  | JObj _ => Raise (PyExc "KeyError" "0")
  | _ => type_error ("'" +:+ type_name v +:+ "' object is not subscriptable")
  end.

(** [v.get(k, d)]. *)
Definition py_get (k : string) (d : json) (v : json) : outcome json :=
  match v with
  | JObj m => Ret (default d (m !! k))
  | _ => Raise (PyExc "AttributeError"
                  ("'" +:+ type_name v +:+ "' object has no attribute 'get'"))
  end.

(** [len(v)]. *)
Definition py_len (v : json) : outcome Z :=
  match v with
  | JStr s => Ret (Z.of_nat (String.length s))
  | JList l => Ret (Z.of_nat (length l))
  | JObj m => Ret (Z.of_nat (size m))
  | _ => type_error ("object of type '" +:+ type_name v +:+ "' has no len()")
  end.

(** The mapping a value contributes to a dict display [{**v}]. *)
Definition py_unpack (v : json) : outcome (gmap string json) :=
  match v with
  | JObj m => Ret m
  | _ => type_error ("'" +:+ type_name v +:+ "' object is not a mapping")
  end.

(** The value written by [d.update] or by a later [**] in a dict display
    wins: [{**a, **b}] is [b ∪ a]. *)
Definition dict_merge (a b : gmap string json) : gmap string json := b ∪ a.

Definition put_if {A} (keep : A -> bool) (inj : A -> json)
    (k : string) (o : option A) (d : gmap string json) : gmap string json :=
  match o with
  | Some a => if keep a then <[k := inj a]> d else d
  | None => d
  end.

(** [if o: d[k] = o] for an optional string or integer: [None], the empty
    string and 0 are falsy. *)
Definition put_truthy_str := put_if (fun s : string => negb (bool_decide (s = ""))) JStr.
Definition put_truthy_int := put_if (fun z : Z => negb (Z.eqb z 0)) JInt.

(** [if o is not None: d[k] = o]. *)
Definition put_given_bool := put_if (fun _ : bool => true) JBool.
Definition put_given_int := put_if (fun _ : Z => true) JInt.
Definition put_given_str := put_if (fun _ : string => true) JStr.

Definition put_when (c : bool) (k : string) (v : json)
    (d : gmap string json) : gmap string json :=
  if c then <[k := v]> d else d.

Definition error_value (msg : string) : json := JObj {[ "error" := JStr msg ]}.

Definition header_object (s : string) : json :=
  JObj {[ "text" := JStr s; "visibility" := JBool true; "size" := JStr "medium" ]}.

(** The chain [.replace("<b>", "").replace("</b>", "").replace("<i>", "")
    .replace("</i>", "")] of create_content_card. *)
Definition strip_markup (s : string) : string :=
  replace "</i>" "" (replace "<i>" "" (replace "</b>" "" (replace "<b>" "" s))).

Definition CLAUDE_MCP_SERVER : json := JStr "CLAUDE_MCP_SERVER".

(** [emits P m]: whatever [m] does, it only appends events satisfying [P]. *)
Definition emits {A} (P : event -> Prop) (m : M A) : Prop :=
  forall t, exists added, snd (m t) = t ++ added /\ Forall P added.

(** [starts_with first P m]: [m] always makes the call [first], and after it
    only appends events satisfying [P]. *)
Definition starts_with {A} (first : event) (P : event -> Prop) (m : M A) : Prop :=
  forall t, exists added, snd (m t) = t ++ first :: added /\ Forall P added.

Definition not_http (ev : event) : Prop := is_http ev = false.

(** ** Sample surroundings, for running the tools on concrete inputs *)

(** A runtime for ASCII inputs: its [str_upper], [str_lower] and
    [re_match_size] are the ASCII functions on every text, which is what the
    interpreter computes on the ASCII texts the examples use. *)

Definition sample_lib : pylib := {|
  json_dumps := fun v => "<" +:+ type_name v +:+ ">";
  container_str := fun v => "<" +:+ type_name v +:+ ">";
  b64decode := fun _ => Ret [];
  status_error_message := fun _ r => "status " +:+ pretty (status_code r);
  str_upper := upper;
  str_lower := lower;
  re_match_size := size_pattern_matches;
  str_upper_ascii := fun _ _ => eq_refl;
  str_lower_ascii := fun _ _ => eq_refl;
  re_match_size_ascii := fun _ _ => eq_refl
|}.

(** A world whose network answers every request with [status] and [body]. *)
Definition sample_world (status : Z) (raw : string) (body : json) : world := {|
  http_send := fun _ _ => Ret {| status_code := status; text := raw; json_of := Ret body |};
  blob_connect := fun _ => Ret tt;
  blob_upload := fun _ _ blob _ => Ret ("https://blobs.example/" +:+ blob);
  image := list byte;
  image_open := fun b => Ret b;
  image_mode := fun _ => "RGB";
  image_convert := fun i _ => Ret i;
  image_save := fun i _ _ _ => Ret i;
  uuid4 := fun _ => "0123456789abcdef";
  now_ist_isoformat := fun _ => "2025-01-01T00:00:00+05:30"
|}.

(** A world like [sample_world] whose decoded images carry an alpha
    channel: an image is its mode and its bytes. *)
Definition rgba_world (status : Z) (raw : string) (body : json) : world := {|
  http_send := fun _ _ => Ret {| status_code := status; text := raw; json_of := Ret body |};
  blob_connect := fun _ => Ret tt;
  blob_upload := fun _ _ blob _ => Ret ("https://blobs.example/" +:+ blob);
  image := string * list byte;
  image_open := fun b => Ret ("RGBA", b);
  image_mode := fun i => fst i;
  image_convert := fun i mode => Ret (mode, snd i);
  image_save := fun i _ _ _ => Ret (snd i);
  uuid4 := fun _ => "0123456789abcdef";
  now_ist_isoformat := fun _ => "2025-01-01T00:00:00+05:30"
|}.

(** A world whose network and blob store refuse every call with [e]. *)
Definition failing_world (e : exn) : world := {|
  http_send := fun _ _ => Raise e;
  blob_connect := fun _ => Raise e;
  blob_upload := fun _ _ _ _ => Raise e;
  image := list byte;
  image_open := fun _ => Raise e;
  image_mode := fun _ => "RGB";
  image_convert := fun _ _ => Raise e;
  image_save := fun _ _ _ _ => Raise e;
  uuid4 := fun _ => "0123456789abcdef";
  now_ist_isoformat := fun _ => "2025-01-01T00:00:00+05:30"
|}.

(** A runtime like [sample_lib] whose base64 decoder hands back the bytes of
    its argument. *)
Definition echo_lib : pylib := {|
  json_dumps := fun v => "<" +:+ type_name v +:+ ">";
  container_str := fun v => "<" +:+ type_name v +:+ ">";
  b64decode := fun s => Ret (String.list_byte_of_string s);
  status_error_message := fun _ r => "status " +:+ pretty (status_code r);
  str_upper := upper;
  str_lower := lower;
  re_match_size := size_pattern_matches;
  str_upper_ascii := fun _ _ => eq_refl;
  str_lower_ascii := fun _ _ => eq_refl;
  re_match_size_ascii := fun _ _ => eq_refl
|}.

(** ** Voice synthesis *)

(** The ElevenLabs SDK with its two settings from the environment.
    [text_to_speech_convert] is [client.text_to_speech.convert] consumed to
    the end: given the API key, the text, the voice and the model it yields
    the chunks of the audio stream or raises.  The voice settings are the
    constants of the source and are not passed. *)
Record speech := {
  ELEVENLABS_API_KEY : string;
  ELEVENLABS_VOICE_ID : string;
  text_to_speech_convert :
    trace -> string -> string -> string -> string -> outcome (list (list byte))
}.

Definition sample_speech (answer : outcome (list (list byte))) : speech := {|
  ELEVENLABS_API_KEY := "your-elevenlabs-api-key";
  ELEVENLABS_VOICE_ID := "21m00Tcm4TlvDq8ikWAM";
  text_to_speech_convert := fun _ _ _ _ _ => answer
|}.

(** An optional text as the builders read it: the empty string counts as
    not given. *)
Definition given_text (o : option string) : option string :=
  match o with
  | Some EmptyString => None
  | _ => o
  end.

(** An optional integer as the builders read it: 0 counts as not given. *)
Definition given_nonzero (o : option Z) : option Z :=
  match o with
  | Some 0 => None
  | _ => o
  end.

Definition is_upload (ev : event) : bool :=
  match ev with EvUpload _ _ _ _ => true | EvHttp _ => false end.

Definition all_digits (s : string) : bool :=
  match drop_digits s with EmptyString => true | _ => false end.

Fixpoint no_char (c : ascii) (s : string) : bool :=
  match s with
  | EmptyString => true
  | String d s' => negb (bool_decide (d = c)) && no_char c s'
  end.

Fixpoint no_upper_case (s : string) : bool :=
  match s with
  | EmptyString => true
  | String c s' =>
      negb (N.leb 65 (N_of_ascii c) && N.leb (N_of_ascii c) 90) && no_upper_case s'
  end.

Section Server.
Context (cfg : config) (lib : pylib) (W : world).

(** A value inside an f-string. *)
Definition format_value (v : json) : string :=
  match v with
  | JStr s => s
  | JNull => "None"
  | JBool true => "True"
  | JBool false => "False"
  | JInt z => pretty z
  | _ => container_str lib v
  end.

(** ** HTTP client adapter *)

Definition send (rq : http_request) : M response :=
  fun t => (http_send W t rq, t ++ [EvHttp rq]).

(** httpx: [raise_for_status] raises for every status outside 200..299. *)
Definition is_success (r : response) : bool :=
  (200 <=? status_code r) && (status_code r <=? 299).

Definition raise_for_status (rq : http_request) (r : response) : M unit :=
  if is_success r then ret tt
  else raise (HTTPStatusError (status_error_message lib rq r) (status_code r) (text r)).

Definition api_call (verb endpoint : string) (data : option json) : http_request := {|
  rq_method := verb;
  rq_url := API_BASE_URL cfg +:+ endpoint;
  rq_headers := [("Authorization", "Bearer " +:+ API_TOKEN cfg);
                 ("Content-Type", "application/json")];
  rq_params := [];
  rq_json := data;
  rq_timeout := 30
|}.

Definition checked_json (rq : http_request) : M json :=
  response <- send rq ;;
  _ <- raise_for_status rq response ;;
  lift (json_of response).

(** The two [except] clauses of make_api_request. *)
Definition request_error (e : exn) : json :=
  match e with
  | HTTPStatusError _ status body =>
      error_value ("HTTP " +:+ pretty status +:+ ": " +:+ body)
  | _ => error_value ("Request failed: " +:+ str_exn e)
  end.

Definition make_api_request (method endpoint : string) (data : option json) : M json :=
  try_except
    (if decide (str_upper lib method = "GET")
     then checked_json (api_call "GET" endpoint None)
     else if decide (str_upper lib method = "POST")
     then checked_json (api_call "POST" endpoint data)
     else if decide (str_upper lib method = "PUT")
     then checked_json (api_call "PUT" endpoint data)
     else ret (error_value ("Unsupported HTTP method: " +:+ method)))
    (fun e => ret (request_error e)).

(** What make_api_request returns, from what the network answered. *)
Definition api_answer (o : outcome response) : json :=
  match o with
  | Raise e => request_error e
  | Ret r =>
      if is_success r
      then match json_of r with Ret j => j | Raise e => request_error e end
      else error_value ("HTTP " +:+ pretty (status_code r) +:+ ": " +:+ text r)
  end.

Definition post_card (card_data : gmap string json) : M string :=
  result <- make_api_request "POST" "/api/createCard" (Some (JObj card_data)) ;;
  ret (json_dumps lib result).

(** ** Card builders *)

Definition audio_card_contents (audio_url title : string)
    (background_image_url audio_script : option string)
    (audio_generated : option bool) (audio_generated_at image_prompt : option string)
    (image_generated : option bool) (image_generated_at : option string)
    : gmap string json :=
  let contents : gmap string json :=
    {[ "_header1" := header_object title; "header1" := JStr title;
       "audio" := JStr audio_url ]} in
  let contents := put_truthy_str "image" background_image_url contents in
  let contents := put_truthy_str "audioScript" audio_script contents in
  let contents := put_given_bool "audioGenerated" audio_generated contents in
  let contents := put_truthy_str "audioGeneratedAt" audio_generated_at contents in
  let contents :=
    put_when (truthy_bool audio_generated) "audioGeneratedBy" CLAUDE_MCP_SERVER contents in
  let contents := put_truthy_str "imagePrompt" image_prompt contents in
  let contents := put_given_bool "imageGenerated" image_generated contents in
  let contents := put_truthy_str "imageGeneratedAt" image_generated_at contents in
  put_when (truthy_bool image_generated) "imageGeneratedBy" CLAUDE_MCP_SERVER contents.

Definition audio_card_data (course_id audio_url title : string)
    (background_image_url audio_script : option string)
    (audio_generated : option bool) (audio_generated_at image_prompt : option string)
    (image_generated : option bool) (image_generated_at : option string)
    (sort_order : option Z) (is_mandatory : bool) : gmap string json :=
  let contents :=
    audio_card_contents audio_url title background_image_url audio_script
      audio_generated audio_generated_at image_prompt image_generated
      image_generated_at in
  let card_data : gmap string json :=
    {[ "courseId" := JStr course_id; "cardType" := JStr "audio";
       "contents" := JObj contents; "isMandatory" := JBool is_mandatory ]} in
  put_truthy_int "sortOrder" sort_order card_data.

Definition create_audio_card (course_id audio_url title : string)
    (background_image_url audio_script : option string)
    (audio_generated : option bool) (audio_generated_at image_prompt : option string)
    (image_generated : option bool) (image_generated_at : option string)
    (sort_order : option Z) (is_mandatory : bool) : M string :=
  post_card
    (audio_card_data course_id audio_url title background_image_url audio_script
       audio_generated audio_generated_at image_prompt image_generated
       image_generated_at sort_order is_mandatory).

Definition content_card_contents (header1_text : string)
    (header2_text image_url image_prompt : option string)
    (image_generated : option bool) (image_generated_at : option string)
    (align : string) : gmap string json :=
  let contents : gmap string json :=
    {[ "_header1" := header_object header1_text;
       "header1" := JStr (strip_markup header1_text) ]} in
  let contents :=
    match header2_text with
    | Some h2 =>
        if bool_decide (h2 = "") then contents
        else <["header2" := JStr (strip_markup h2)]>
               (<["_header2" := header_object h2]> contents)
    | None => contents
    end in
  let contents :=
    match image_url with
    | Some u =>
        if bool_decide (u = "") then contents
        else <["align" := JStr align]> (<["image" := JStr u]> contents)
    | None => contents
    end in
  let contents := put_truthy_str "imagePrompt" image_prompt contents in
  let contents := put_given_bool "imageGenerated" image_generated contents in
  let contents := put_truthy_str "imageGeneratedAt" image_generated_at contents in
  put_when (truthy_bool image_generated) "imageGeneratedBy" CLAUDE_MCP_SERVER contents.

Definition content_card_data (course_id header1_text : string)
    (header2_text image_url image_prompt : option string)
    (image_generated : option bool) (image_generated_at : option string)
    (align : string) (sort_order : option Z) (is_mandatory : bool)
    : gmap string json :=
  let contents :=
    content_card_contents header1_text header2_text image_url image_prompt
      image_generated image_generated_at align in
  let card_data : gmap string json :=
    {[ "courseId" := JStr course_id; "cardType" := JStr "content";
       "contents" := JObj contents; "align" := JStr align;
       "isMandatory" := JBool is_mandatory ]} in
  put_truthy_int "sortOrder" sort_order card_data.

Definition create_content_card (course_id header1_text : string)
    (header2_text image_url image_prompt : option string)
    (image_generated : option bool) (image_generated_at : option string)
    (align : string) (sort_order : option Z) (is_mandatory : bool) : M string :=
  post_card
    (content_card_data course_id header1_text header2_text image_url image_prompt
       image_generated image_generated_at align sort_order is_mandatory).


Definition quiz_card_contents (question : string) (options : list string)
    (correct_answer : string) (comment : option string) : gmap string json :=
  let contents : gmap string json :=
    {[ "_header1" := header_object question; "header1" := JStr question;
       "options" := JList (JStr <$> options);
       "correct" := JList [JStr correct_answer] ]} in
  put_truthy_str "comment" comment contents.

Definition quiz_card_data (course_id question : string) (options : list string)
    (correct_answer : string) (comment : option string)
    (sort_order : option Z) (is_mandatory : bool) : gmap string json :=
  let contents := quiz_card_contents question options correct_answer comment in
  let card_data : gmap string json :=
    {[ "courseId" := JStr course_id; "cardType" := JStr "quiz";
       "contents" := JObj contents; "isMandatory" := JBool is_mandatory ]} in
  put_truthy_int "sortOrder" sort_order card_data.

Definition create_quiz_card (course_id question : string) (options : list string)
    (correct_answer : string) (comment : option string)
    (sort_order : option Z) (is_mandatory : bool) : M string :=
  if ((length options <? 2)%nat || (4 <? length options)%nat)%bool
  then ret (json_dumps lib (error_value "Quiz must have 2-4 options"))
  else if negb (bool_decide (correct_answer ∈ options))
  then ret (json_dumps lib (error_value
              ("Correct answer '" +:+ correct_answer
               +:+ "' must be one of the provided options")))
  else post_card
         (quiz_card_data course_id question options correct_answer comment
            sort_order is_mandatory).

Definition poll_card_data (course_id question : string) (options : list string)
    (sort_order : option Z) (is_mandatory : bool) : gmap string json :=
  let contents : gmap string json :=
    {[ "_header1" := header_object question;
       "options" := JList (JStr <$> options) ]} in
  let card_data : gmap string json :=
    {[ "courseId" := JStr course_id; "cardType" := JStr "poll";
       "contents" := JObj contents; "isMandatory" := JBool is_mandatory ]} in
  put_truthy_int "sortOrder" sort_order card_data.

Definition create_poll_card (course_id question : string) (options : list string)
    (sort_order : option Z) (is_mandatory : bool) : M string :=
  if ((length options <? 2)%nat || (4 <? length options)%nat)%bool
  then ret (json_dumps lib (error_value "Poll must have 2-4 options"))
  else post_card (poll_card_data course_id question options sort_order is_mandatory).

Definition form_card_data (course_id question : string)
    (sort_order : option Z) (is_mandatory : bool) : gmap string json :=
  let contents : gmap string json := {[ "_header1" := header_object question ]} in
  let card_data : gmap string json :=
    {[ "courseId" := JStr course_id; "cardType" := JStr "form";
       "contents" := JObj contents; "isMandatory" := JBool is_mandatory ]} in
  put_truthy_int "sortOrder" sort_order card_data.

Definition create_form_card (course_id question : string)
    (sort_order : option Z) (is_mandatory : bool) : M string :=
  post_card (form_card_data course_id question sort_order is_mandatory).

Definition video_card_data (course_id video_url : string)
    (sort_order : option Z) (is_mandatory : bool) : gmap string json :=
  let contents : gmap string json := {[ "video" := JStr video_url ]} in
  let card_data : gmap string json :=
    {[ "courseId" := JStr course_id; "cardType" := JStr "video";
       "contents" := JObj contents; "isMandatory" := JBool is_mandatory ]} in
  put_truthy_int "sortOrder" sort_order card_data.

Definition create_video_card (course_id video_url : string)
    (sort_order : option Z) (is_mandatory : bool) : M string :=
  post_card (video_card_data course_id video_url sort_order is_mandatory).

Definition link_card_data (course_id title link_url link_caption : string)
    (sort_order : option Z) : gmap string json :=
  let contents : gmap string json :=
    {[ "_header1" := header_object title; "header1" := JStr title;
       "link" := JStr link_url; "linkcaption" := JStr link_caption ]} in
  let card_data : gmap string json :=
    {[ "courseId" := JStr course_id; "cardType" := JStr "link";
       "contents" := JObj contents ]} in
  put_truthy_int "sortOrder" sort_order card_data.

Definition create_link_card (course_id title link_url link_caption : string)
    (sort_order : option Z) : M string :=
  post_card (link_card_data course_id title link_url link_caption sort_order).

(** ** Update-merge path *)

(** Lines 903-914 of update_card: the fields other than contents. *)
Definition update_fields (update_data : gmap string json)
    (is_mandatory : option bool) (sort_order : option Z)
    (is_active : option bool) (card_type : option string) : gmap string json :=
  let update_data := put_given_bool "isMandatory" is_mandatory update_data in
  let update_data := put_given_int "sortOrder" sort_order update_data in
  let update_data := put_given_bool "isActive" is_active update_data in
  put_given_str "cardType" card_type update_data.

(** Lines 903-921 of update_card: the other fields, the empty check and the
    PUT. *)
Definition update_card_put (card_id : string) (update_data : gmap string json)
    (is_mandatory : option bool) (sort_order : option Z)
    (is_active : option bool) (card_type : option string) : M string :=
  let update_data :=
    update_fields update_data is_mandatory sort_order is_active card_type in
  if bool_decide (update_data = ∅)
  then ret (json_dumps lib (error_value "No update data provided"))
  else
    result <- make_api_request "PUT" ("/api/card/" +:+ card_id) (Some (JObj update_data)) ;;
    ret (json_dumps lib result).

Definition update_card (card_id : string) (contents : option (gmap string json))
    (is_mandatory : option bool) (sort_order : option Z)
    (is_active : option bool) (card_type : option string) : M string :=
  let update_data : gmap string json := ∅ in
  match contents with
  | Some partial =>
      current_result <- make_api_request "GET" ("/api/card/" +:+ card_id) None ;;
      failed <- lift (py_in "error" current_result) ;;
      if (failed : bool) then
        err <- lift (py_getitem "error" current_result) ;;
        ret (json_dumps lib (error_value
               ("Failed to fetch card for update: " +:+ format_value err)))
      else
        found <- lift (py_get "contents" (JObj ∅) current_result) ;;
        current_contents <- lift (py_unpack found) ;;
        let merged_contents := dict_merge current_contents partial in
        update_card_put card_id (<["contents" := JObj merged_contents]> update_data)
          is_mandatory sort_order is_active card_type
  | None =>
      update_card_put card_id update_data is_mandatory sort_order is_active card_type
  end.

(** ** Image generation and upload *)

Definition now : M string := fun t => (Ret (now_ist_isoformat W t), t).

Definition generate_uuid : M string := fun t => (Ret (uuid4 W t), t).

Definition image_generation_call (prompt size output_format : string) : http_request := {|
  rq_method := "POST";
  rq_url := AZURE_OPENAI_ENDPOINT cfg +:+ "/openai/deployments/"
            +:+ AZURE_OPENAI_DEPLOYMENT cfg +:+ "/images/generations";
  rq_headers := [("Content-Type", "application/json");
                 ("api-key", AZURE_OPENAI_API_KEY cfg)];
  rq_params := [("api-version", AZURE_OPENAI_API_VERSION cfg)];
  rq_json := Some (JObj {[ "prompt" := JStr prompt; "size" := JStr size;
                           "quality" := JStr "medium";
                           "output_compression" := JInt 100;
                           "output_format" := JStr output_format;
                           "n" := JInt 1 ]});
  rq_timeout := 60
|}.

Definition py_b64decode (v : json) : outcome (list byte) :=
  match v with
  | JStr s => b64decode lib s
  | _ => type_error ("argument should be a bytes-like object or ASCII string, not '"
                     +:+ type_name v +:+ "'")
  end.

Definition generate_image_with_azure_openai
    (prompt size output_format : string) : M (list byte) :=
  try_except
    (if negb (re_match_size lib size)
     then raise (PyExc "ValueError"
                   ("Invalid size format: " +:+ size
                    +:+ ". Must be in format 'WIDTHxHEIGHT'"))
     else if negb (bool_decide (output_format ∈ ["png"; "jpg"]))
     then raise (PyExc "ValueError"
                   ("Invalid output format: " +:+ output_format
                    +:+ ". Must be 'png' or 'jpg'"))
     else
       let rq := image_generation_call prompt size output_format in
       response <- send rq ;;
       _ <- raise_for_status rq response ;;
       result <- lift (json_of response) ;;
       has_data <- lift (py_in "data" result) ;;
       nonempty <- (if (has_data : bool)
                    then data <- lift (py_getitem "data" result) ;;
                         n <- lift (py_len data) ;;
                         ret (0 <? n)
                    else ret false) ;;
       if (nonempty : bool) then
         data <- lift (py_getitem "data" result) ;;
         first <- lift (py_first data) ;;
         b64_json <- lift (py_getitem "b64_json" first) ;;
         lift (py_b64decode b64_json)
       else raise (PyExc "Exception" "No image data returned from Azure OpenAI"))
    (fun e =>
       raise (PyExc "Exception"
                ("Azure OpenAI image generation failed: " +:+ str_exn e))).

Definition convert_image_to_webp (image_bytes : list byte) (quality : Z)
    : M (list byte) :=
  try_except
    (img <- lift (image_open W image_bytes) ;;
     img <- (if bool_decide (image_mode W img ∈ ["RGBA"; "P"])
             then lift (image_convert W img "RGB")
             else ret img) ;;
     lift (image_save W img "WebP" quality true))
    (fun e =>
       raise (PyExc "Exception" ("Image conversion to WebP failed: " +:+ str_exn e))).

Definition upload_blob (blob_name : string) (file_data : list byte) : M string :=
  fun t =>
    (blob_upload W t (AZURE_CONTAINER_NAME cfg) blob_name file_data,
     t ++ [EvUpload (AZURE_CONTAINER_NAME cfg) blob_name file_data true]).

Definition upload_to_azure (file_data : list byte)
    (filename file_type file_extension : string) : M string :=
  try_except
    (_ <- lift (blob_connect W (AZURE_STORAGE_CONNECTION_STRING cfg)) ;;
     uuid <- generate_uuid ;;
     let blob_name :=
       file_type +:+ "/" +:+ filename +:+ "_" +:+ String.substring 0 8 uuid
       +:+ "." +:+ file_extension in
     upload_blob blob_name file_data)
    (fun e => raise (PyExc "Exception" ("Azure Storage upload failed: " +:+ str_exn e))).

Definition generate_and_upload_image
    (prompt title size output_format : string) : M string :=
  image_data <- generate_image_with_azure_openai prompt size output_format ;;
  webp_data <- convert_image_to_webp image_data 85 ;;
  let filename := str_lower lib (replace " " "_" title) in
  upload_to_azure webp_data filename "images" "webp".

Definition background_image_message (image_url prompt generated_at : string) : string :=
  String.concat nl
    ["Background image generated and uploaded successfully!";
     "";
     "Image URL: " +:+ image_url;
     "Image Format: Portrait (1024x1536) - optimized for audio cards";
     "";
     "IMPORTANT: When creating the audio card with this background image, include these parameters:";
     "- background_image_url: " +:+ dq +:+ image_url +:+ dq;
     "- image_prompt: " +:+ dq +:+ prompt +:+ dq;
     "- image_generated: true";
     "- image_generated_at: " +:+ dq +:+ generated_at +:+ dq;
     "";
     "Use create_audio_card with all audio parameters PLUS these image tracking parameters for the background.";
     "";
     "Note: The system automatically sets imageGeneratedBy to 'CLAUDE_MCP_SERVER' when image_generated is true."].

Definition generate_background_image_for_audio (prompt title : string) : M string :=
  try_except
    (generated_at <- now ;;
     let size := "1024x1536" in
     image_url <- generate_and_upload_image prompt title size "png" ;;
     ret (background_image_message image_url prompt generated_at))
    (fun e => ret ("Error: " +:+ str_exn e)).

(** Lines 533-541 of generate_image_from_text. *)
Definition size_of_aspect_ratio (aspect_ratio : string) : string :=
  if decide (str_lower lib aspect_ratio = "square") then "1024x1024"
  else if decide (str_lower lib aspect_ratio = "portrait") then "1024x1536"
  else if decide (str_lower lib aspect_ratio = "landscape") then "1536x1024"
  else "1024x1024".

Definition image_message (image_url prompt generated_at : string) : string :=
  String.concat nl
    ["Image generated and uploaded successfully!";
     "";
     "Image URL: " +:+ image_url;
     "";
     "IMPORTANT: When creating content or audio cards with this image, include these parameters to properly track generated images:";
     "- image_prompt: " +:+ dq +:+ prompt +:+ dq;
     "- image_generated: true";
     "- image_generated_at: " +:+ dq +:+ generated_at +:+ dq;
     "";
     "For content cards: Use create_content_card with image_url, image_prompt, image_generated, and image_generated_at parameters.";
     "For audio cards (background image): Use create_audio_card with background_image_url, image_prompt, image_generated, and image_generated_at parameters.";
     "";
     "Note: The system automatically sets imageGeneratedBy to 'CLAUDE_MCP_SERVER' when image_generated is true."].

Definition generate_image_from_text (prompt title : string)
    (aspect_ratio output_format : option string) : M string :=
  try_except
    (generated_at <- now ;;
     let aspect_ratio := default "square" aspect_ratio in
     let output_format := default "png" output_format in
     let size := size_of_aspect_ratio aspect_ratio in
     if negb (bool_decide (output_format ∈ ["png"; "jpg"]))
     then ret ("Error: Invalid output format '" +:+ output_format
               +:+ "'. Must be 'png' or 'jpg'")
     else
       image_url <- generate_and_upload_image prompt title size output_format ;;
       ret (image_message image_url prompt generated_at))
    (fun e => ret ("Error: " +:+ str_exn e)).

(** ** Reads and courses *)

Definition get_course (course_id : string) : M string :=
  result <- make_api_request "GET" ("/api/course?id=" +:+ course_id) None ;;
  ret (json_dumps lib result).

Definition get_card (card_id : string) : M string :=
  result <- make_api_request "GET" ("/api/card/" +:+ card_id) None ;;
  ret (json_dumps lib result).

Definition get_course_cards (course_id : string) : M string :=
  result <- make_api_request "GET" ("/api/courses/" +:+ course_id +:+ "/cards") None ;;
  ret (json_dumps lib result).

(** The company identifier, read from the environment at import. *)
Context (COMPANY_ID : string).

Definition course_payload (id title : string) (duration : option Z)
    (description folder_id finalized_course_plan : option string)
    (is_published is_autoplay is_scorable : bool)
    (gradient_from_color gradient_to_color theme_id : option string)
    : gmap string json :=
  let course_data : gmap string json :=
    {[ "id" := JStr id; "title" := JStr title; "companyId" := JStr COMPANY_ID;
       "duration" := from_option JInt JNull duration;
       "isPublished" := JBool is_published; "isAutoplay" := JBool is_autoplay;
       "isScorable" := JBool is_scorable; "createdByAgent" := JBool true ]} in
  let course_data := put_truthy_str "description" description course_data in
  let course_data := put_truthy_str "folderId" folder_id course_data in
  let course_data :=
    put_truthy_str "finalizedCoursePlan" finalized_course_plan course_data in
  let course_data := put_truthy_str "gradientFromColor" gradient_from_color course_data in
  let course_data := put_truthy_str "gradientToColor" gradient_to_color course_data in
  put_truthy_str "themeId" theme_id course_data.

Definition create_course (title : string) (duration : option Z)
    (description folder_id finalized_course_plan : option string)
    (is_published is_autoplay is_scorable : bool)
    (gradient_from_color gradient_to_color theme_id : option string) : M string :=
  id <- generate_uuid ;;
  let course_data :=
    course_payload id title duration description folder_id finalized_course_plan
      is_published is_autoplay is_scorable gradient_from_color gradient_to_color
      theme_id in
  result <- make_api_request "POST" "/api/createCourse" (Some (JObj course_data)) ;;
  ret (json_dumps lib result).

(** ** Audio generation and upload *)

Context (V : speech).

Definition synthesize (text : string) : M (list (list byte)) :=
  fun t =>
    (text_to_speech_convert V t (ELEVENLABS_API_KEY V) text (ELEVENLABS_VOICE_ID V)
       "eleven_v3", t).

Definition generate_audio_with_elevenlabs (text : string) : M (list byte) :=
  try_except
    (audio <- synthesize text ;;
     let audio_bytes := concat audio in
     ret audio_bytes)
    (fun e =>
       raise (PyExc "Exception"
                ("ElevenLabs audio generation failed: " +:+ str_exn e))).

Definition generate_and_upload_audio (text title : string) : M string :=
  audio_data <- generate_audio_with_elevenlabs text ;;
  let filename := str_lower lib (replace " " "_" title) in
  upload_to_azure audio_data filename "audio" "mp3".

Definition audio_message (audio_url text generated_at : string) : string :=
  String.concat nl
    ["Audio generated and uploaded successfully!";
     "";
     "Audio URL: " +:+ audio_url;
     "";
     "IMPORTANT: When creating the audio card, include these parameters to properly track generated audio:";
     "- script: " +:+ dq +:+ text +:+ dq;
     "- audio_generated: true";
     "- audio_generated_at: " +:+ dq +:+ generated_at +:+ dq;
     "";
     "Use create_audio_card with script, audio_generated, and audio_generated_at parameters to maintain proper tracking.";
     "";
     "If you're also generating a background image for this audio card, remember to include the image tracking parameters as well.";
     "";
     "Note: For audio card background images, consider using generate_background_image_for_audio which automatically generates portrait-format images optimized for audio cards."].

Definition generate_audio_from_text (text title : string) : M string :=
  try_except
    (generated_at <- now ;;
     audio_url <- generate_and_upload_audio text title ;;
     ret (audio_message audio_url text generated_at))
    (fun e => ret ("Error: " +:+ str_exn e)).

(** ** Diagnostics *)

Definition echo_message (message : string) : M string :=
  ret ("Echo: " +:+ message).

Definition get_server_info : M string :=
  ret "Super Singularity MCP Server v1.0 - Complete course and card creation with ElevenLabs TTS + Azure Storage".

(** * Properties *)

(** ** What a computation adds to the trace *)

Lemma emits_ret {A} P (a : A) : emits P (ret a).
Proof. intros t. exists []. by rewrite app_nil_r. Qed.

Lemma emits_raise {A} P e : emits P (@raise A e).
Proof. intros t. exists []. by rewrite app_nil_r. Qed.

Lemma emits_lift {A} P (o : outcome A) : emits P (lift o).
Proof. intros t. exists []. by rewrite app_nil_r. Qed.

Lemma emits_bind {A B} P (m : M A) (k : A -> M B) :
  emits P m -> (forall a, emits P (k a)) -> emits P (bind m k).
Proof.
  intros Hm Hk t. unfold bind.
  destruct (Hm t) as (l1 & E1 & F1).
  destruct (m t) as [[a|e] t1]; simpl in E1; subst t1.
  - destruct (Hk a (t ++ l1)) as (l2 & E2 & F2).
    exists (l1 ++ l2). rewrite E2, app_assoc. split; [done|]. by apply Forall_app.
  - by exists l1.
Qed.

Lemma emits_try_except {A} P (m : M A) (h : exn -> M A) :
  emits P m -> (forall e, emits P (h e)) -> emits P (try_except m h).
Proof.
  intros Hm Hh t. unfold try_except.
  destruct (Hm t) as (l1 & E1 & F1).
  destruct (m t) as [[a|e] t1]; simpl in E1; subst t1.
  - by exists l1.
  - destruct (Hh e (t ++ l1)) as (l2 & E2 & F2).
    exists (l1 ++ l2). rewrite E2, app_assoc. split; [done|]. by apply Forall_app.
Qed.

Lemma emits_if {A} P (c : bool) (m1 m2 : M A) :
  emits P m1 -> emits P m2 -> emits P (if c then m1 else m2).
Proof. by destruct c. Qed.

Create HintDb emits.
#[local] Hint Resolve emits_ret emits_raise emits_lift emits_if : emits.
#[local] Hint Extern 2 (emits _ (bind _ _)) => apply emits_bind; [|intros ?] : emits.
#[local] Hint Extern 2 (emits _ (try_except _ _)) =>
  apply emits_try_except; [|intros ?] : emits.

Lemma starts_with_bind {A B} first P (m : M A) (k : A -> M B) :
  starts_with first P m -> (forall a, emits P (k a)) -> starts_with first P (bind m k).
Proof.
  intros Hm Hk t. unfold bind.
  destruct (Hm t) as (l1 & E1 & F1).
  destruct (m t) as [[a|e] t1]; simpl in E1; subst t1.
  - destruct (Hk a (t ++ first :: l1)) as (l2 & E2 & F2).
    exists (l1 ++ l2). rewrite E2, <- app_assoc. split; [done|]. by apply Forall_app.
  - by exists l1.
Qed.

Lemma starts_with_try_except {A} first P (m : M A) (h : exn -> M A) :
  starts_with first P m -> (forall e, emits P (h e)) ->
  starts_with first P (try_except m h).
Proof.
  intros Hm Hh t. unfold try_except.
  destruct (Hm t) as (l1 & E1 & F1).
  destruct (m t) as [[a|e] t1]; simpl in E1; subst t1.
  - by exists l1.
  - destruct (Hh e (t ++ first :: l1)) as (l2 & E2 & F2).
    exists (l1 ++ l2). rewrite E2, <- app_assoc. split; [done|]. by apply Forall_app.
Qed.

Lemma starts_with_send P rq : starts_with (EvHttp rq) P (send rq).
Proof. intros t. by exists []. Qed.

Lemma emits_raise_for_status P rq r : emits P (raise_for_status rq r).
Proof. unfold raise_for_status. auto with emits. Qed.

Lemma emits_now P : emits P now.
Proof. intros t. exists []. by rewrite app_nil_r. Qed.

Lemma emits_generate_uuid P : emits P generate_uuid.
Proof. intros t. exists []. by rewrite app_nil_r. Qed.

Lemma emits_upload_blob blob_name file_data : emits not_http (upload_blob blob_name file_data).
Proof. intros t. eexists [_]. split; [done|]. by constructor. Qed.

#[local] Hint Resolve emits_raise_for_status emits_now emits_generate_uuid
  emits_upload_blob : emits.

(** ** HTTP client adapter *)

Lemma checked_json_run rq t :
  try_except (checked_json rq) (fun e => ret (request_error e)) t
  = (Ret (api_answer (http_send W t rq)), t ++ [EvHttp rq]).
Proof.
  unfold try_except, checked_json, bind, send, raise_for_status, lift, api_answer.
  destruct (http_send W t rq) as [r|e]; [|done].
  destruct (is_success r); [|done].
  by destruct (json_of r).
Qed.

Lemma str_upper_verb verb :
  verb ∈ ["GET"; "POST"; "PUT"] -> str_upper lib verb = verb.
Proof.
  intros Hv. rewrite str_upper_ascii.
  - apply elem_of_cons in Hv as [->|Hv]; [|apply elem_of_cons in Hv as [->|Hv]];
      [| |apply list_elem_of_singleton in Hv as ->]; reflexivity.
  - apply elem_of_cons in Hv as [->|Hv]; [|apply elem_of_cons in Hv as [->|Hv]];
      [| |apply list_elem_of_singleton in Hv as ->]; reflexivity.
Qed.

Lemma make_api_request_GET endpoint data t :
  make_api_request "GET" endpoint data t
  = (Ret (api_answer (http_send W t (api_call "GET" endpoint None))),
     t ++ [EvHttp (api_call "GET" endpoint None)]).
Proof.
  unfold make_api_request. rewrite str_upper_ascii by reflexivity.
  apply checked_json_run.
Qed.

Lemma make_api_request_POST endpoint data t :
  make_api_request "POST" endpoint data t
  = (Ret (api_answer (http_send W t (api_call "POST" endpoint data))),
     t ++ [EvHttp (api_call "POST" endpoint data)]).
Proof.
  unfold make_api_request. rewrite str_upper_ascii by reflexivity.
  apply checked_json_run.
Qed.

Lemma make_api_request_PUT endpoint data t :
  make_api_request "PUT" endpoint data t
  = (Ret (api_answer (http_send W t (api_call "PUT" endpoint data))),
     t ++ [EvHttp (api_call "PUT" endpoint data)]).
Proof.
  unfold make_api_request. rewrite str_upper_ascii by reflexivity.
  apply checked_json_run.
Qed.

(** C8. A method whose upper-cased form, as the runtime's [str.upper] gives
    it, is none of GET, POST, PUT gets the unsupported-method error value and
    the trace is left as it was: nothing is sent.  For a supported method, a
    response whose status is outside 200..299 gives the error value
    "HTTP <status>: <raw response text>". *)
Theorem make_api_request_error_values method endpoint data t :
  (str_upper lib method <> "GET" -> str_upper lib method <> "POST" ->
   str_upper lib method <> "PUT" ->
   make_api_request method endpoint data t
   = (Ret (error_value ("Unsupported HTTP method: " +:+ method)), t))
  /\
  (forall verb r,
     str_upper lib method = verb -> verb ∈ ["GET"; "POST"; "PUT"] ->
     let rq := api_call verb endpoint (if decide (verb = "GET") then None else data) in
     http_send W t rq = Ret r ->
     ~ (200 <= status_code r <= 299) ->
     make_api_request method endpoint data t
     = (Ret (error_value ("HTTP " +:+ pretty (status_code r) +:+ ": " +:+ text r)),
        t ++ [EvHttp rq])).
Proof.
  split.
  - intros H1 H2 H3. unfold make_api_request, try_except.
    by rewrite !decide_False.
  - intros verb r Hm Hv rq Hs Hc.
    assert (is_success r = false) as Hf.
    { unfold is_success. apply andb_false_iff.
      destruct (Z.leb_spec 200 (status_code r)); [right|by left].
      apply Z.leb_gt. lia. }
    unfold make_api_request. rewrite Hm.
    apply elem_of_cons in Hv as [->|Hv]; [|apply elem_of_cons in Hv as [->|Hv]];
      [| |apply list_elem_of_singleton in Hv as ->]; simpl;
      rewrite checked_json_run; subst rq; simpl in Hs; rewrite Hs;
      unfold api_answer; by rewrite Hf.
Qed.

(** ** Update-merge path *)

Lemma put_if_lookup_ne {A} (keep : A -> bool) (inj : A -> json) k k' o
    (d : gmap string json) :
  k <> k' -> put_if keep inj k o d !! k' = d !! k'.
Proof.
  intros Hk. unfold put_if. destruct o as [a|]; [|done].
  destruct (keep a); [|done]. by rewrite lookup_insert_ne.
Qed.

Lemma update_fields_contents d is_mandatory sort_order is_active card_type :
  update_fields d is_mandatory sort_order is_active card_type !! "contents"
  = d !! "contents".
Proof.
  unfold update_fields, put_given_bool, put_given_int, put_given_str.
  by rewrite !put_if_lookup_ne.
Qed.

Lemma update_card_put_sends card_id d c is_mandatory sort_order is_active card_type t :
  d !! "contents" = Some c ->
  let data := update_fields d is_mandatory sort_order is_active card_type in
  let rq := api_call "PUT" ("/api/card/" +:+ card_id) (Some (JObj data)) in
  update_card_put card_id d is_mandatory sort_order is_active card_type t
  = (Ret (json_dumps lib (api_answer (http_send W t rq))), t ++ [EvHttp rq]).
Proof.
  intros Hc data rq. unfold update_card_put. fold data.
  assert (data <> ∅) as Hne.
  { intros E. pose proof (update_fields_contents d is_mandatory sort_order
      is_active card_type) as Hl. fold data in Hl. rewrite E, Hc in Hl. done. }
  rewrite bool_decide_eq_false_2 by done.
  unfold bind. by rewrite make_api_request_PUT.
Qed.

(** C1. When the GET of the current card answers with a card object that is
    not an error value and whose contents (read with the default of an empty
    object) is the object [cur], update_card with the partial contents
    [partial] makes exactly two calls, that GET and one PUT, and the PUT body
    carries under "contents" the shallow merge: the caller's value for every
    key of [partial], and the fetched value (or absence) for every other key. *)
Theorem update_card_merges_contents card_id partial is_mandatory sort_order
    is_active card_type t card cur t1 :
  make_api_request "GET" ("/api/card/" +:+ card_id) None t = (Ret (JObj card), t1) ->
  card !! "error" = None ->
  default (JObj ∅) (card !! "contents") = JObj cur ->
  exists data merged result,
    update_card card_id (Some partial) is_mandatory sort_order is_active card_type t
    = (Ret (json_dumps lib result),
       t ++ [EvHttp (api_call "GET" ("/api/card/" +:+ card_id) None);
             EvHttp (api_call "PUT" ("/api/card/" +:+ card_id) (Some (JObj data)))])
    /\ data !! "contents" = Some (JObj merged)
    /\ (forall k v, partial !! k = Some v -> merged !! k = Some v)
    /\ (forall k, partial !! k = None -> merged !! k = cur !! k).
Proof.
  intros Hget Herr Hcur.
  pose proof (make_api_request_GET ("/api/card/" +:+ card_id) None t) as Hrun.
  rewrite Hget in Hrun. injection Hrun as Hans ->.
  set (d := <["contents" := JObj (dict_merge cur partial)]> (∅ : gmap string json)).
  exists (update_fields d is_mandatory sort_order is_active card_type),
    (dict_merge cur partial).
  eexists. split; [|split; [|split]].
  - unfold update_card. unfold bind at 1. rewrite Hget.
    unfold bind at 1, lift, py_in at 1. rewrite Herr.
    unfold bind at 1, py_get at 1. rewrite Hcur.
    unfold bind at 1, py_unpack at 1. fold d.
    rewrite (update_card_put_sends card_id d (JObj (dict_merge cur partial)))
      by apply lookup_insert_eq.
    by rewrite <- app_assoc.
  - rewrite update_fields_contents. apply lookup_insert_eq.
  - intros k v Hk. unfold dict_merge. by apply lookup_union_Some_l.
  - intros k Hk. unfold dict_merge. by apply lookup_union_r.
Qed.

(** C4. When the GET of the current card answers with an error value (an
    object with an "error" key), update_card with a contents argument returns
    the error "Failed to fetch card for update: ..." at once; the only call
    made is that GET, so nothing is written. *)
Theorem update_card_aborts_on_read_error card_id partial is_mandatory sort_order
    is_active card_type t r err t1 :
  make_api_request "GET" ("/api/card/" +:+ card_id) None t = (Ret (JObj r), t1) ->
  r !! "error" = Some err ->
  update_card card_id (Some partial) is_mandatory sort_order is_active card_type t
  = (Ret (json_dumps lib (error_value
            ("Failed to fetch card for update: " +:+ format_value err))),
     t ++ [EvHttp (api_call "GET" ("/api/card/" +:+ card_id) None)]).
Proof.
  intros Hget Herr.
  pose proof (make_api_request_GET ("/api/card/" +:+ card_id) None t) as Hrun.
  rewrite Hget in Hrun. injection Hrun as Hans ->.
  unfold update_card. unfold bind at 1. rewrite Hget.
  unfold bind at 1, lift, py_in at 1. rewrite Herr.
  unfold bind at 1, py_getitem at 1. by rewrite Herr.
Qed.

(** ** Card builders *)

Lemma post_card_run card_data t :
  let rq := api_call "POST" "/api/createCard" (Some (JObj card_data)) in
  post_card card_data t
  = (Ret (json_dumps lib (api_answer (http_send W t rq))), t ++ [EvHttp rq]).
Proof. intros rq. unfold post_card, bind. by rewrite make_api_request_POST. Qed.

(** C2. With fewer than 2 or more than 4 options, or a correct answer that is
    not one of the options, create_quiz_card returns a serialised error value
    and leaves the trace as it was: no request is made.  A bad option count
    gives the message "Quiz must have 2-4 options". *)
Theorem create_quiz_card_rejects course_id question options correct_answer comment
    sort_order is_mandatory t :
  (length options < 2)%nat \/ (4 < length options)%nat \/ correct_answer ∉ options ->
  exists msg,
    create_quiz_card course_id question options correct_answer comment sort_order
      is_mandatory t
    = (Ret (json_dumps lib (error_value msg)), t)
    /\ ((length options < 2)%nat \/ (4 < length options)%nat ->
        msg = "Quiz must have 2-4 options").
Proof.
  intros H. unfold create_quiz_card.
  destruct ((length options <? 2)%nat || (4 <? length options)%nat)%bool eqn:Hlen.
  - by eexists.
  - apply orb_false_elim in Hlen as [H2 H4].
    apply Nat.ltb_ge in H2. apply Nat.ltb_ge in H4.
    destruct H as [H|[H|H]]; [lia|lia|].
    rewrite bool_decide_eq_false_2 by done. simpl.
    eexists. split; [done|]. lia.
Qed.

(** C6. With 2 to 4 options and a correct answer among them, create_quiz_card
    posts one card payload, with cardType "quiz", contents.options the given
    options and contents.correct the one-element list of the correct answer. *)
Theorem create_quiz_card_payload course_id question options correct_answer comment
    sort_order is_mandatory t :
  (2 <= length options <= 4)%nat ->
  correct_answer ∈ options ->
  exists card_data contents result,
    create_quiz_card course_id question options correct_answer comment sort_order
      is_mandatory t
    = (Ret (json_dumps lib result),
       t ++ [EvHttp (api_call "POST" "/api/createCard" (Some (JObj card_data)))])
    /\ card_data !! "cardType" = Some (JStr "quiz")
    /\ card_data !! "contents" = Some (JObj contents)
    /\ contents !! "options" = Some (JList (JStr <$> options))
    /\ contents !! "correct" = Some (JList [JStr correct_answer]).
Proof.
  intros [H2 H4] Hin. unfold create_quiz_card.
  rewrite (proj2 (Nat.ltb_ge _ _)) by done.
  rewrite (proj2 (Nat.ltb_ge _ _)) by done.
  rewrite bool_decide_eq_true_2 by done. simpl.
  rewrite post_card_run.
  exists (quiz_card_data course_id question options correct_answer comment
            sort_order is_mandatory),
    (quiz_card_contents question options correct_answer comment).
  eexists. split; [reflexivity|].
  unfold quiz_card_data, quiz_card_contents, put_truthy_int, put_truthy_str.
  rewrite !put_if_lookup_ne by done.
  repeat split; reflexivity.
Qed.

Lemma put_when_lookup c k v (d : gmap string json) :
  put_when c k v d !! k = if c then Some v else d !! k.
Proof. unfold put_when. destruct c; [apply lookup_insert_eq|done]. Qed.

Lemma put_when_lookup_ne c k k' v (d : gmap string json) :
  k <> k' -> put_when c k v d !! k' = d !! k'.
Proof. intros Hk. unfold put_when. destruct c; [by rewrite lookup_insert_ne|done]. Qed.

Lemma audio_card_image_stamp audio_url title background_image_url audio_script
    audio_generated audio_generated_at image_prompt image_generated image_generated_at :
  audio_card_contents audio_url title background_image_url audio_script
    audio_generated audio_generated_at image_prompt image_generated image_generated_at
    !! "imageGeneratedBy"
  = if truthy_bool image_generated then Some (JStr "CLAUDE_MCP_SERVER") else None.
Proof.
  unfold audio_card_contents. rewrite put_when_lookup.
  destruct (truthy_bool image_generated); [done|].
  unfold put_truthy_str, put_given_bool.
  rewrite !put_if_lookup_ne by done. rewrite put_when_lookup_ne by done.
  by rewrite !put_if_lookup_ne by done.
Qed.

Lemma audio_card_audio_stamp audio_url title background_image_url audio_script
    audio_generated audio_generated_at image_prompt image_generated image_generated_at :
  audio_card_contents audio_url title background_image_url audio_script
    audio_generated audio_generated_at image_prompt image_generated image_generated_at
    !! "audioGeneratedBy"
  = if truthy_bool audio_generated then Some (JStr "CLAUDE_MCP_SERVER") else None.
Proof.
  unfold audio_card_contents. rewrite put_when_lookup_ne by done.
  unfold put_truthy_str, put_given_bool.
  rewrite !put_if_lookup_ne by done. rewrite put_when_lookup.
  destruct (truthy_bool audio_generated); [done|].
  by rewrite !put_if_lookup_ne by done.
Qed.

(** A concrete key is none of the keys of a list. *)
Ltac fresh_key :=
  rewrite !not_elem_of_cons; repeat split; solve [done | apply not_elem_of_nil].

Lemma content_card_lookup_base k header1_text header2_text image_url image_prompt
    image_generated image_generated_at align :
  k ∉ ["header2"; "_header2"; "align"; "image"; "imagePrompt"; "imageGenerated";
       "imageGeneratedAt"; "imageGeneratedBy"] ->
  content_card_contents header1_text header2_text image_url image_prompt
    image_generated image_generated_at align !! k
  = ({[ "_header1" := header_object header1_text;
        "header1" := JStr (strip_markup header1_text) ]} : gmap string json) !! k.
Proof.
  intros Hk. unfold content_card_contents.
  rewrite put_when_lookup_ne by set_solver.
  unfold put_truthy_str, put_given_bool.
  rewrite !put_if_lookup_ne by set_solver.
  destruct image_url as [u|]; [destruct (bool_decide (u = ""))|];
    destruct header2_text as [h2|]; try destruct (bool_decide (h2 = ""));
    rewrite ?lookup_insert_ne by set_solver; done.
Qed.

Lemma content_card_image_stamp header1_text header2_text image_url image_prompt
    image_generated image_generated_at align :
  content_card_contents header1_text header2_text image_url image_prompt
    image_generated image_generated_at align !! "imageGeneratedBy"
  = if truthy_bool image_generated then Some (JStr "CLAUDE_MCP_SERVER") else None.
Proof.
  unfold content_card_contents. rewrite put_when_lookup.
  destruct (truthy_bool image_generated); [done|].
  unfold put_truthy_str, put_given_bool.
  rewrite !put_if_lookup_ne by done.
  destruct image_url as [u|]; [destruct (bool_decide (u = ""))|];
    destruct header2_text as [h2|]; try destruct (bool_decide (h2 = ""));
    rewrite ?lookup_insert_ne by done; done.
Qed.

(** C3. The contents posted by create_audio_card and by create_content_card
    hold imageGeneratedBy = "CLAUDE_MCP_SERVER" when image_generated is true,
    whatever the other arguments are, and hold no imageGeneratedBy key when it
    is false or omitted; create_audio_card treats audioGeneratedBy and
    audio_generated the same way. *)
Theorem generated_by_stamp :
  (forall course_id audio_url title background_image_url audio_script
      audio_generated audio_generated_at image_prompt image_generated
      image_generated_at sort_order is_mandatory t,
     exists card_data contents result,
       create_audio_card course_id audio_url title background_image_url audio_script
         audio_generated audio_generated_at image_prompt image_generated
         image_generated_at sort_order is_mandatory t
       = (Ret (json_dumps lib result),
          t ++ [EvHttp (api_call "POST" "/api/createCard" (Some (JObj card_data)))])
       /\ card_data !! "contents" = Some (JObj contents)
       /\ contents !! "imageGeneratedBy"
          = match image_generated with
            | Some true => Some (JStr "CLAUDE_MCP_SERVER")
            | _ => None
            end
       /\ contents !! "audioGeneratedBy"
          = match audio_generated with
            | Some true => Some (JStr "CLAUDE_MCP_SERVER")
            | _ => None
            end)
  /\
  (forall course_id header1_text header2_text image_url image_prompt image_generated
      image_generated_at align sort_order is_mandatory t,
     exists card_data contents result,
       create_content_card course_id header1_text header2_text image_url image_prompt
         image_generated image_generated_at align sort_order is_mandatory t
       = (Ret (json_dumps lib result),
          t ++ [EvHttp (api_call "POST" "/api/createCard" (Some (JObj card_data)))])
       /\ card_data !! "contents" = Some (JObj contents)
       /\ contents !! "imageGeneratedBy"
          = match image_generated with
            | Some true => Some (JStr "CLAUDE_MCP_SERVER")
            | _ => None
            end).
Proof.
  split; intros.
  - unfold create_audio_card. rewrite post_card_run.
    eexists _, (audio_card_contents audio_url title background_image_url audio_script
      audio_generated audio_generated_at image_prompt image_generated
      image_generated_at), _.
    split; [reflexivity|]. split.
    + unfold audio_card_data, put_truthy_int. by rewrite put_if_lookup_ne.
    + rewrite audio_card_image_stamp, audio_card_audio_stamp.
      by destruct image_generated as [[]|], audio_generated as [[]|].
  - unfold create_content_card. rewrite post_card_run.
    eexists _, (content_card_contents header1_text header2_text image_url
      image_prompt image_generated image_generated_at align), _.
    split; [reflexivity|]. split.
    + unfold content_card_data, put_truthy_int. by rewrite put_if_lookup_ne.
    + rewrite content_card_image_stamp. by destruct image_generated as [[]|].
Qed.

(** ** Header markup *)

Lemma prefix_other_char c d old s :
  c <> d -> String.prefix (String c old) (String d s) = false.
Proof. intros Hne. cbn [String.prefix]. by destruct (ascii_dec c d). Qed.

Lemma replace_plain_prefix old new w rest :
  no_open_bracket w = true ->
  replace_from (String "<" old) new 0 (w +:+ rest)
  = w +:+ replace_from (String "<" old) new 0 rest.
Proof.
  induction w as [|c w IH]; intros Hw; [done|].
  simpl in Hw. apply andb_true_iff in Hw as [Hc Hw].
  apply negb_true_iff, bool_decide_eq_false in Hc.
  change (String c w +:+ rest) with (String c (w +:+ rest)).
  cbn [replace_from]. rewrite prefix_other_char by done.
  by rewrite IH.
Qed.

Lemma spec_plain_prefix w rest :
  no_open_bracket w = true ->
  spec_remove_tags_from 0 (w +:+ rest) = w +:+ spec_remove_tags_from 0 rest.
Proof.
  induction w as [|c w IH]; intros Hw; [done|].
  simpl in Hw. apply andb_true_iff in Hw as [Hc Hw].
  apply negb_true_iff, bool_decide_eq_false in Hc.
  change (String c w +:+ rest) with (String c (w +:+ rest)).
  cbn [spec_remove_tags_from]. rewrite !prefix_other_char by done.
  simpl. by rewrite IH.
Qed.

Lemma replace_other old body rest :
  String.prefix (String "<" old) (String "<" (body +:+ rest)) = false ->
  no_open_bracket body = true ->
  replace_from (String "<" old) "" 0 (String "<" body +:+ rest)
  = String "<" body +:+ replace_from (String "<" old) "" 0 rest.
Proof.
  intros Hp Hb. change (String "<" body +:+ rest) with (String "<" (body +:+ rest)).
  cbn [replace_from]. rewrite Hp. by rewrite replace_plain_prefix.
Qed.

Lemma replace_piece old p rest :
  String "<" old ∈ markup_tags -> markup_piece p = true ->
  replace_from (String "<" old) "" 0 (p +:+ rest)
  = (if bool_decide (p = String "<" old) then "" else p)
    +:+ replace_from (String "<" old) "" 0 rest.
Proof.
  intros Ho Hp. unfold markup_piece in Hp. apply orb_true_iff in Hp as [Hp|Hp].
  - apply bool_decide_eq_true in Hp.
    unfold markup_tags in Ho, Hp.
    repeat (apply elem_of_cons in Ho as [Ho|Ho]; [injection Ho as ->|]);
      try (by apply elem_of_nil in Ho);
      repeat (apply elem_of_cons in Hp as [->|Hp]);
      try (by apply elem_of_nil in Hp);
      try (rewrite bool_decide_eq_true_2 by done; destruct rest; reflexivity).
    all: rewrite bool_decide_eq_false_2 by done.
    all: apply (replace_other _ _ rest); reflexivity.
  - rewrite bool_decide_eq_false_2.
    + by apply replace_plain_prefix.
    + intros ->. simpl in Hp. done.
Qed.

Lemma join_cons p ps : join (p :: ps) = p +:+ join ps.
Proof. done. Qed.

Lemma replace_join old ps :
  String "<" old ∈ markup_tags -> forallb markup_piece ps = true ->
  replace (String "<" old) "" (join ps)
  = join (filter (fun p => p <> String "<" old) ps).
Proof.
  intros Ho. unfold replace. induction ps as [|p ps IH]; intros Hps; [done|].
  simpl in Hps. apply andb_true_iff in Hps as [Hp Hps].
  rewrite join_cons, replace_piece, IH by done.
  rewrite filter_cons. case_bool_decide; case_decide; try done.
Qed.

Lemma filter_markup (P : string -> Prop) `{!forall p, Decision (P p)} ps :
  forallb markup_piece ps = true -> forallb markup_piece (filter P ps) = true.
Proof.
  induction ps as [|p ps IH]; [done|]. simpl. intros [Hp Hps]%andb_true_iff.
  rewrite filter_cons. case_decide; simpl; [rewrite Hp|]; by apply IH.
Qed.

Lemma spec_piece p rest :
  markup_piece p = true ->
  spec_remove_tags_from 0 (p +:+ rest)
  = (if bool_decide (p ∈ markup_tags) then "" else p)
    +:+ spec_remove_tags_from 0 rest.
Proof.
  intros Hp. case_bool_decide as Ht.
  - unfold markup_tags in Ht.
    repeat (apply elem_of_cons in Ht as [->|Ht]); try (by apply elem_of_nil in Ht);
      destruct rest; reflexivity.
  - unfold markup_piece in Hp. rewrite bool_decide_eq_false_2 in Hp by done.
    by apply spec_plain_prefix.
Qed.

Lemma spec_join ps :
  forallb markup_piece ps = true ->
  spec_remove_tags (join ps) = join (filter (fun p => p ∉ markup_tags) ps).
Proof.
  unfold spec_remove_tags. induction ps as [|p ps IH]; intros Hps; [done|].
  simpl in Hps. apply andb_true_iff in Hps as [Hp Hps].
  rewrite join_cons, spec_piece, IH by done.
  rewrite filter_cons. case_bool_decide; case_decide; try done.
Qed.

Lemma tag_member t : bool_decide (t ∈ markup_tags) = true -> t ∈ markup_tags.
Proof. apply bool_decide_eq_true_1. Qed.

(** On well-formed markup the four replacements of the source remove exactly
    the tags: there [strip_markup] and the one-pass reading agree. *)
Lemma strip_markup_on_markup ps :
  forallb markup_piece ps = true ->
  strip_markup (join ps) = spec_remove_tags (join ps).
Proof.
  intros Hps. rewrite spec_join by done. unfold strip_markup.
  rewrite (replace_join "b>") by (done || by apply tag_member).
  rewrite (replace_join "/b>") by (by apply filter_markup || by apply tag_member).
  rewrite (replace_join "i>")
    by (by repeat apply filter_markup || by apply tag_member).
  rewrite (replace_join "/i>")
    by (by repeat apply filter_markup || by apply tag_member).
  f_equal. rewrite !list_filter_filter. apply list_filter_iff.
  intros p. unfold markup_tags. rewrite !not_elem_of_cons.
  pose proof (not_elem_of_nil p). tauto.
Qed.

(** C9, as the code has it. The contents posted by create_content_card hold
    the header twice: _header1 is the object {text: header1_text unchanged,
    visibility: true, size: "medium"}, and header1 is header1_text after four
    successive replacements that delete every <b>, then every </b>, then
    every <i>, then every </i>.  A header2_text that is supplied and not
    empty gets the same two entries _header2 and header2; an empty or omitted
    header2_text gets neither. *)
Theorem content_card_headers course_id header1_text header2_text image_url
    image_prompt image_generated image_generated_at align sort_order is_mandatory t :
  exists card_data contents result,
    create_content_card course_id header1_text header2_text image_url image_prompt
      image_generated image_generated_at align sort_order is_mandatory t
    = (Ret (json_dumps lib result),
       t ++ [EvHttp (api_call "POST" "/api/createCard" (Some (JObj card_data)))])
    /\ card_data !! "contents" = Some (JObj contents)
    /\ contents !! "_header1"
       = Some (JObj {[ "text" := JStr header1_text; "visibility" := JBool true;
                       "size" := JStr "medium" ]})
    /\ contents !! "header1"
       = Some (JStr (replace "</i>" "" (replace "<i>" ""
                       (replace "</b>" "" (replace "<b>" "" header1_text)))))
    /\ match header2_text with
       | Some (String c h) =>
           let h2 := String c h in
           contents !! "_header2"
           = Some (JObj {[ "text" := JStr h2; "visibility" := JBool true;
                           "size" := JStr "medium" ]})
           /\ contents !! "header2"
              = Some (JStr (replace "</i>" "" (replace "<i>" ""
                              (replace "</b>" "" (replace "<b>" "" h2)))))
       | _ => contents !! "_header2" = None /\ contents !! "header2" = None
       end.
Proof.
  unfold create_content_card. rewrite post_card_run.
  eexists _, (content_card_contents header1_text header2_text image_url
    image_prompt image_generated image_generated_at align), _.
  split; [reflexivity|]. split.
  { unfold content_card_data, put_truthy_int. by rewrite put_if_lookup_ne. }
  split; [by rewrite content_card_lookup_base by fresh_key|].
  split; [by rewrite content_card_lookup_base by fresh_key|].
  unfold content_card_contents.
  rewrite !put_when_lookup_ne by done.
  unfold put_truthy_str, put_given_bool.
  rewrite !put_if_lookup_ne by done.
  destruct header2_text as [[|c h]|];
    destruct image_url as [u|]; try destruct (bool_decide (u = ""));
    simpl; rewrite ?lookup_insert_ne by done; done.
Qed.

(** C10. In each of the seven card builders a sort_order of 0 builds the same
    payload as an omitted sort_order, so the whole call behaves the same, and
    that payload has no sortOrder key. *)
Theorem sort_order_zero_is_omitted :
  (forall course_id audio_url title background_image_url audio_script
      audio_generated audio_generated_at image_prompt image_generated
      image_generated_at is_mandatory,
     audio_card_data course_id audio_url title background_image_url audio_script
       audio_generated audio_generated_at image_prompt image_generated
       image_generated_at (Some 0) is_mandatory !! "sortOrder" = None
     /\ create_audio_card course_id audio_url title background_image_url
          audio_script audio_generated audio_generated_at image_prompt
          image_generated image_generated_at (Some 0) is_mandatory
        = create_audio_card course_id audio_url title background_image_url
            audio_script audio_generated audio_generated_at image_prompt
            image_generated image_generated_at None is_mandatory)
  /\ (forall course_id header1_text header2_text image_url image_prompt
        image_generated image_generated_at align is_mandatory,
       content_card_data course_id header1_text header2_text image_url image_prompt
         image_generated image_generated_at align (Some 0) is_mandatory
         !! "sortOrder" = None
       /\ create_content_card course_id header1_text header2_text image_url
            image_prompt image_generated image_generated_at align (Some 0)
            is_mandatory
          = create_content_card course_id header1_text header2_text image_url
              image_prompt image_generated image_generated_at align None
              is_mandatory)
  /\ (forall course_id question options correct_answer comment is_mandatory,
       quiz_card_data course_id question options correct_answer comment (Some 0)
         is_mandatory !! "sortOrder" = None
       /\ create_quiz_card course_id question options correct_answer comment
            (Some 0) is_mandatory
          = create_quiz_card course_id question options correct_answer comment
              None is_mandatory)
  /\ (forall course_id question options is_mandatory,
       poll_card_data course_id question options (Some 0) is_mandatory
         !! "sortOrder" = None
       /\ create_poll_card course_id question options (Some 0) is_mandatory
          = create_poll_card course_id question options None is_mandatory)
  /\ (forall course_id question is_mandatory,
       form_card_data course_id question (Some 0) is_mandatory !! "sortOrder" = None
       /\ create_form_card course_id question (Some 0) is_mandatory
          = create_form_card course_id question None is_mandatory)
  /\ (forall course_id video_url is_mandatory,
       video_card_data course_id video_url (Some 0) is_mandatory !! "sortOrder" = None
       /\ create_video_card course_id video_url (Some 0) is_mandatory
          = create_video_card course_id video_url None is_mandatory)
  /\ (forall course_id title link_url link_caption,
       link_card_data course_id title link_url link_caption (Some 0)
         !! "sortOrder" = None
       /\ create_link_card course_id title link_url link_caption (Some 0)
          = create_link_card course_id title link_url link_caption None).
Proof.
  repeat split; reflexivity.
Qed.

(** ** Image generation *)

Lemma emits_convert_image_to_webp P image_bytes quality :
  emits P (convert_image_to_webp image_bytes quality).
Proof. unfold convert_image_to_webp. auto 10 with emits. Qed.

Lemma emits_upload_to_azure file_data filename file_type file_extension :
  emits not_http (upload_to_azure file_data filename file_type file_extension).
Proof. unfold upload_to_azure. auto 10 with emits. Qed.

Lemma generate_image_starts prompt size output_format :
  re_match_size lib size = true ->
  output_format ∈ ["png"; "jpg"] ->
  starts_with (EvHttp (image_generation_call prompt size output_format)) not_http
    (generate_image_with_azure_openai prompt size output_format).
Proof.
  intros Hs Hf. unfold generate_image_with_azure_openai.
  rewrite Hs, bool_decide_eq_true_2 by done. simpl.
  apply starts_with_try_except; [|auto with emits].
  apply starts_with_bind; [apply starts_with_send|].
  intros r. auto 20 with emits.
Qed.

Lemma generate_and_upload_image_starts prompt title size output_format :
  re_match_size lib size = true ->
  output_format ∈ ["png"; "jpg"] ->
  starts_with (EvHttp (image_generation_call prompt size output_format)) not_http
    (generate_and_upload_image prompt title size output_format).
Proof.
  intros Hs Hf. unfold generate_and_upload_image.
  apply starts_with_bind; [by apply generate_image_starts|].
  intros image_data. apply emits_bind; [apply emits_convert_image_to_webp|].
  intros webp_data. apply emits_upload_to_azure.
Qed.

Lemma image_generation_call_size prompt size output_format :
  exists body,
    rq_json (image_generation_call prompt size output_format) = Some (JObj body)
    /\ body !! "size" = Some (JStr size).
Proof. eexists. split; reflexivity. Qed.

(** C7. generate_background_image_for_audio always sends the image
    generation request, for every prompt and title, and the size in its body
    is "1024x1536"; nothing else it does is an HTTP request. *)
Theorem background_image_is_portrait prompt title t :
  exists added body,
    snd (generate_background_image_for_audio prompt title t)
    = t ++ EvHttp (image_generation_call prompt "1024x1536" "png") :: added
    /\ Forall not_http added
    /\ rq_json (image_generation_call prompt "1024x1536" "png") = Some (JObj body)
    /\ body !! "size" = Some (JStr "1024x1536").
Proof.
  destruct (image_generation_call_size prompt "1024x1536" "png") as (body & Hb & Hsz).
  assert (starts_with (EvHttp (image_generation_call prompt "1024x1536" "png")) not_http
            (generate_background_image_for_audio prompt title)) as Hstart.
  { unfold generate_background_image_for_audio.
    apply starts_with_try_except; [|auto with emits].
    intros t0. unfold bind at 1, now.
    apply starts_with_bind; [|auto with emits].
    apply generate_and_upload_image_starts;
      [by rewrite re_match_size_ascii|apply list_elem_of_here]. }
  destruct (Hstart t) as (added & Ht & Hadd).
  by exists added, body.
Qed.

(** C5. With a valid output format, generate_image_from_text always sends the
    image generation request, and the size in its body follows the aspect
    ratio, compared in lower case: square (also the default of an omitted
    aspect ratio) gives "1024x1024", portrait "1024x1536", landscape
    "1536x1024", and any other value "1024x1024".  A value that is not
    recognised makes the call behave exactly as "square" does, whatever the
    output format: it is never reported as an error.  The three names
    themselves are mapped as said by every runtime. *)
Theorem aspect_ratio_sizes prompt title :
  (forall aspect_ratio output_format size t,
     default "png" output_format ∈ ["png"; "jpg"] ->
     let a := str_lower lib (default "square" aspect_ratio) in
     (a = "square" /\ size = "1024x1024")
     \/ (a = "portrait" /\ size = "1024x1536")
     \/ (a = "landscape" /\ size = "1536x1024")
     \/ ((a ∉ ["square"; "portrait"; "landscape"]) /\ size = "1024x1024") ->
     exists added body,
       let rq := image_generation_call prompt size (default "png" output_format) in
       snd (generate_image_from_text prompt title aspect_ratio output_format t)
       = t ++ EvHttp rq :: added
       /\ Forall not_http added
       /\ rq_json rq = Some (JObj body)
       /\ body !! "size" = Some (JStr size))
  /\
  (forall a output_format,
     str_lower lib a ∉ ["square"; "portrait"; "landscape"] ->
     generate_image_from_text prompt title (Some a) output_format
     = generate_image_from_text prompt title (Some "square") output_format)
  /\
  (size_of_aspect_ratio "square" = "1024x1024"
   /\ size_of_aspect_ratio "portrait" = "1024x1536"
   /\ size_of_aspect_ratio "landscape" = "1536x1024").
Proof.
  assert (forall a, str_lower lib a ∉ ["square"; "portrait"; "landscape"] ->
            size_of_aspect_ratio a = "1024x1024") as Hother.
  { intros a Ha. rewrite !not_elem_of_cons in Ha. destruct Ha as (H1 & H2 & H3 & _).
    unfold size_of_aspect_ratio. by rewrite !decide_False. }
  split.
  - intros aspect_ratio output_format size t Hf a Hcase.
    assert (size_of_aspect_ratio (default "square" aspect_ratio) = size
            /\ re_match_size lib size = true) as [Hsize Hpat].
    { unfold size_of_aspect_ratio. fold a.
      destruct Hcase as [[Ha ->]|[[Ha ->]|[[Ha ->]|[Ha ->]]]];
        rewrite re_match_size_ascii by reflexivity.
      - by rewrite Ha.
      - by rewrite Ha.
      - by rewrite Ha.
      - split; [by apply Hother|done]. }
    destruct (image_generation_call_size prompt size (default "png" output_format))
      as (body & Hb & Hsz).
    assert (starts_with
              (EvHttp (image_generation_call prompt size (default "png" output_format)))
              not_http
              (generate_image_from_text prompt title aspect_ratio output_format))
      as Hstart.
    { unfold generate_image_from_text.
      apply starts_with_try_except; [|auto with emits].
      intros t0. unfold bind at 1, now.
      rewrite bool_decide_eq_true_2 by done. simpl. rewrite Hsize.
      apply starts_with_bind; [|auto with emits].
      by apply generate_and_upload_image_starts. }
    destruct (Hstart t) as (added & Ht & Hadd).
    by exists added, body.
  - split.
    + intros a output_format Ha. unfold generate_image_from_text. simpl.
      rewrite (Hother a Ha). unfold size_of_aspect_ratio.
      by rewrite str_lower_ascii.
    + unfold size_of_aspect_ratio. by rewrite !str_lower_ascii.
Qed.

(** * Further properties of the code *)

(** ** HTTP client adapter, all outcomes *)

Lemma make_api_request_cases method endpoint data t :
  make_api_request method endpoint data t
  = if decide (str_upper lib method = "GET")
    then (Ret (api_answer (http_send W t (api_call "GET" endpoint None))),
          t ++ [EvHttp (api_call "GET" endpoint None)])
    else if decide (str_upper lib method = "POST")
    then (Ret (api_answer (http_send W t (api_call "POST" endpoint data))),
          t ++ [EvHttp (api_call "POST" endpoint data)])
    else if decide (str_upper lib method = "PUT")
    then (Ret (api_answer (http_send W t (api_call "PUT" endpoint data))),
          t ++ [EvHttp (api_call "PUT" endpoint data)])
    else (Ret (error_value ("Unsupported HTTP method: " +:+ method)), t).
Proof.
  unfold make_api_request.
  repeat case_decide; try apply checked_json_run. reflexivity.
Qed.

Lemma make_api_request_verb method endpoint data t verb :
  str_upper lib method = verb -> verb ∈ ["GET"; "POST"; "PUT"] ->
  let rq := api_call verb endpoint (if decide (verb = "GET") then None else data) in
  make_api_request method endpoint data t
  = (Ret (api_answer (http_send W t rq)), t ++ [EvHttp rq]).
Proof.
  intros Hm Hv. rewrite make_api_request_cases, Hm.
  apply elem_of_cons in Hv as [->|Hv]; [|apply elem_of_cons in Hv as [->|Hv]];
    [| |apply list_elem_of_singleton in Hv as ->]; reflexivity.
Qed.

(** X1. make_api_request never raises, whatever the method and whatever the
    network does: it always returns a value, and it makes at most one call. *)
Theorem make_api_request_never_raises method endpoint data t :
  exists result added,
    make_api_request method endpoint data t = (Ret result, t ++ added)
    /\ (length added <= 1)%nat.
Proof.
  rewrite make_api_request_cases.
  repeat case_decide; try (eexists _, [_]; split; [reflexivity|simpl; lia]).
  eexists _, []. rewrite app_nil_r. split; [reflexivity|simpl; lia].
Qed.

(** X2. For a supported method, a response with a status in 200..299 whose
    body decodes as JSON is returned as that decoded value, error key or not. *)
Theorem make_api_request_returns_body method endpoint data t verb r body :
  str_upper lib method = verb -> verb ∈ ["GET"; "POST"; "PUT"] ->
  let rq := api_call verb endpoint (if decide (verb = "GET") then None else data) in
  http_send W t rq = Ret r ->
  200 <= status_code r <= 299 ->
  json_of r = Ret body ->
  make_api_request method endpoint data t = (Ret body, t ++ [EvHttp rq]).
Proof.
  intros Hm Hv rq Hs Hc Hj.
  rewrite (make_api_request_verb method endpoint data t verb Hm Hv). fold rq.
  rewrite Hs. unfold api_answer, is_success.
  rewrite (proj2 (Z.leb_le _ _)), (proj2 (Z.leb_le _ _)) by lia. simpl.
  by rewrite Hj.
Qed.

(** X3. For a supported method, a transport failure (any exception other
    than an HTTP status error) and a 2xx response whose body does not decode
    both give the error value "Request failed: <str(e)>", after one call. *)
Theorem make_api_request_request_failed method endpoint data t verb cls msg :
  str_upper lib method = verb -> verb ∈ ["GET"; "POST"; "PUT"] ->
  let rq := api_call verb endpoint (if decide (verb = "GET") then None else data) in
  http_send W t rq = Raise (PyExc cls msg)
  \/ (exists r, http_send W t rq = Ret r /\ 200 <= status_code r <= 299
                /\ json_of r = Raise (PyExc cls msg)) ->
  make_api_request method endpoint data t
  = (Ret (error_value ("Request failed: " +:+ msg)), t ++ [EvHttp rq]).
Proof.
  intros Hm Hv rq H.
  rewrite (make_api_request_verb method endpoint data t verb Hm Hv). fold rq.
  destruct H as [Hs|(r & Hs & Hc & Hj)]; rewrite Hs; [done|].
  unfold api_answer, is_success.
  rewrite (proj2 (Z.leb_le _ _)), (proj2 (Z.leb_le _ _)) by lia. simpl.
  by rewrite Hj.
Qed.

(** X4. Every call make_api_request makes is a GET, POST or PUT to the base
    URL followed by the endpoint, with the bearer token and the JSON content
    type as its only headers, no query parameters and a timeout of 30
    seconds; a GET never carries a body. *)
Theorem make_api_request_calls_are_authenticated method endpoint data :
  emits (fun ev =>
           exists verb body,
             verb ∈ ["GET"; "POST"; "PUT"]
             /\ (verb = "GET" -> body = None)
             /\ ev = EvHttp {| rq_method := verb;
                              rq_url := API_BASE_URL cfg +:+ endpoint;
                              rq_headers :=
                                [("Authorization", "Bearer " +:+ API_TOKEN cfg);
                                 ("Content-Type", "application/json")];
                              rq_params := [];
                              rq_json := body;
                              rq_timeout := 30 |})
    (make_api_request method endpoint data).
Proof.
  intros t. rewrite make_api_request_cases.
  repeat case_decide; try (exists []; rewrite app_nil_r; by split).
  - exists [EvHttp (api_call "GET" endpoint None)]. split; [done|].
    constructor; [|done]. exists "GET", None. split; [apply list_elem_of_here|done].
  - exists [EvHttp (api_call "POST" endpoint data)]. split; [done|].
    constructor; [|done]. exists "POST", data.
    split; [apply list_elem_of_further, list_elem_of_here|done].
  - exists [EvHttp (api_call "PUT" endpoint data)]. split; [done|].
    constructor; [|done]. exists "PUT", data.
    split; [do 2 apply list_elem_of_further; apply list_elem_of_here|done].
Qed.

(** X5. The method is matched by its upper-cased form alone: a method that
    the runtime's [str.upper] turns into GET, POST or PUT behaves exactly as
    that form. *)
Theorem make_api_request_ignores_case method endpoint data :
  str_upper lib method ∈ ["GET"; "POST"; "PUT"] ->
  make_api_request method endpoint data
  = make_api_request (str_upper lib method) endpoint data.
Proof.
  intros Hv. unfold make_api_request.
  rewrite (str_upper_verb _ Hv).
  apply elem_of_cons in Hv as [Hv|Hv]; [|apply elem_of_cons in Hv as [Hv|Hv]];
    [| |apply list_elem_of_singleton in Hv]; by rewrite !Hv.
Qed.

(** ** Reads *)

(** X6. get_course, get_card and get_course_cards never raise; each makes
    exactly one call, a GET without body to /api/course?id=<id>,
    /api/card/<id> and /api/courses/<id>/cards with the identifier spliced in
    as given, and returns the serialised answer. *)
Theorem read_tools_get_once id t :
  (let rq := api_call "GET" ("/api/course?id=" +:+ id) None in
   get_course id t
   = (Ret (json_dumps lib (api_answer (http_send W t rq))), t ++ [EvHttp rq]))
  /\ (let rq := api_call "GET" ("/api/card/" +:+ id) None in
      get_card id t
      = (Ret (json_dumps lib (api_answer (http_send W t rq))), t ++ [EvHttp rq]))
  /\ (let rq := api_call "GET" ("/api/courses/" +:+ id +:+ "/cards") None in
      get_course_cards id t
      = (Ret (json_dumps lib (api_answer (http_send W t rq))), t ++ [EvHttp rq])).
Proof.
  unfold get_course, get_card, get_course_cards, bind.
  by rewrite !make_api_request_GET.
Qed.

(** ** Card builders, field by field *)

Lemma put_truthy_str_fresh k o (d : gmap string json) :
  d !! k = None -> put_truthy_str k o d !! k = JStr <$> given_text o.
Proof.
  intros Hd. unfold put_truthy_str, put_if.
  destruct o as [[|c s]|]; simpl; [done| |done]. apply lookup_insert_eq.
Qed.

Lemma put_truthy_int_fresh k o (d : gmap string json) :
  d !! k = None -> put_truthy_int k o d !! k = JInt <$> given_nonzero o.
Proof.
  intros Hd. unfold put_truthy_int, put_if.
  destruct o as [[|p|p]|]; simpl; [done| | |done]; apply lookup_insert_eq.
Qed.

Lemma put_given_bool_fresh k o (d : gmap string json) :
  d !! k = None -> put_given_bool k o d !! k = JBool <$> o.
Proof.
  intros Hd. unfold put_given_bool, put_if.
  destruct o as [b|]; simpl; [apply lookup_insert_eq|done].
Qed.

Lemma put_given_int_fresh k o (d : gmap string json) :
  d !! k = None -> put_given_int k o d !! k = JInt <$> o.
Proof.
  intros Hd. unfold put_given_int, put_if.
  destruct o as [b|]; simpl; [apply lookup_insert_eq|done].
Qed.

Lemma put_given_str_fresh k o (d : gmap string json) :
  d !! k = None -> put_given_str k o d !! k = JStr <$> o.
Proof.
  intros Hd. unfold put_given_str, put_if.
  destruct o as [b|]; simpl; [apply lookup_insert_eq|done].
Qed.

(** Skip the writes to other keys that were made after the one looked up. *)
Ltac peel :=
  unfold put_truthy_str, put_truthy_int, put_given_bool, put_given_int,
    put_given_str;
  repeat first [ rewrite put_if_lookup_ne by done
               | rewrite put_when_lookup_ne by done ].

(** Look a key up in a dict built by a chain of guarded writes. *)
Ltac field :=
  peel;
  first [ apply put_truthy_str_fresh | apply put_truthy_int_fresh
        | apply put_given_bool_fresh | apply put_given_int_fresh
        | apply put_given_str_fresh | idtac ];
  peel; reflexivity.

(** X7. With fewer than 2 or more than 4 options create_poll_card returns the
    serialised error "Poll must have 2-4 options" and makes no call. *)
Theorem create_poll_card_rejects course_id question options sort_order is_mandatory t :
  (length options < 2)%nat \/ (4 < length options)%nat ->
  create_poll_card course_id question options sort_order is_mandatory t
  = (Ret (json_dumps lib (error_value "Poll must have 2-4 options")), t).
Proof.
  intros H. unfold create_poll_card.
  destruct ((length options <? 2)%nat || (4 <? length options)%nat)%bool eqn:Hlen;
    [done|].
  apply orb_false_elim in Hlen as [H2 H4].
  apply Nat.ltb_ge in H2. apply Nat.ltb_ge in H4. lia.
Qed.

(** X8. With 2 to 4 options create_poll_card posts one payload with cardType
    "poll" whose contents are exactly the question as _header1 and the
    options: a poll has no plain header1 and no correct answer. *)
Theorem create_poll_card_payload course_id question options sort_order is_mandatory t :
  (2 <= length options <= 4)%nat ->
  exists card_data result,
    create_poll_card course_id question options sort_order is_mandatory t
    = (Ret (json_dumps lib result),
       t ++ [EvHttp (api_call "POST" "/api/createCard" (Some (JObj card_data)))])
    /\ card_data !! "cardType" = Some (JStr "poll")
    /\ card_data !! "contents"
       = Some (JObj {[ "_header1" := header_object question;
                       "options" := JList (JStr <$> options) ]}).
Proof.
  intros [H2 H4]. unfold create_poll_card.
  rewrite (proj2 (Nat.ltb_ge _ _)) by done.
  rewrite (proj2 (Nat.ltb_ge _ _)) by done. simpl.
  rewrite post_card_run. eexists _, _. split; [reflexivity|].
  unfold poll_card_data, put_truthy_int. split; field.
Qed.

(** X9. The quiz rule holds for every request create_quiz_card sends, with
    no assumption on the arguments: whatever it adds to the trace is a POST
    of a payload whose options number 2 to 4 and whose correct list is one
    answer that is among the options. *)
Theorem create_quiz_card_sends_only_valid_quizzes course_id question options
    correct_answer comment sort_order is_mandatory :
  emits (fun ev =>
           exists card_data contents,
             ev = EvHttp (api_call "POST" "/api/createCard" (Some (JObj card_data)))
             /\ card_data !! "contents" = Some (JObj contents)
             /\ contents !! "options" = Some (JList (JStr <$> options))
             /\ contents !! "correct" = Some (JList [JStr correct_answer])
             /\ correct_answer ∈ options
             /\ (2 <= length options <= 4)%nat)
    (create_quiz_card course_id question options correct_answer comment sort_order
       is_mandatory).
Proof.
  intros t. unfold create_quiz_card.
  destruct ((length options <? 2)%nat || (4 <? length options)%nat)%bool eqn:Hlen.
  { exists []. rewrite app_nil_r. by split. }
  apply orb_false_elim in Hlen as [H2 H4].
  apply Nat.ltb_ge in H2. apply Nat.ltb_ge in H4.
  case_bool_decide as Hin; simpl.
  2:{ exists []. rewrite app_nil_r. by split. }
  rewrite post_card_run. eexists [_]. split; [reflexivity|].
  constructor; [|done].
  exists (quiz_card_data course_id question options correct_answer comment sort_order
            is_mandatory),
    (quiz_card_contents question options correct_answer comment).
  split; [done|].
  unfold quiz_card_data, quiz_card_contents, put_truthy_int, put_truthy_str.
  repeat split; try done; field.
Qed.

(** X10. The envelope of the seven payloads.  Every builder's payload names
    the course it was given and its own fixed card type, and has a sortOrder
    key exactly when sort_order is given and is not 0 (negative numbers are
    sent).  Six of them carry is_mandatory as given; the link card, which has
    no such argument, carries no isMandatory key. *)
Theorem card_payload_envelope course_id sort_order is_mandatory :
  (forall audio_url title background_image_url audio_script audio_generated
      audio_generated_at image_prompt image_generated image_generated_at,
     let d := audio_card_data course_id audio_url title background_image_url
                audio_script audio_generated audio_generated_at image_prompt
                image_generated image_generated_at sort_order is_mandatory in
     d !! "courseId" = Some (JStr course_id) /\ d !! "cardType" = Some (JStr "audio")
     /\ d !! "isMandatory" = Some (JBool is_mandatory)
     /\ d !! "sortOrder" = JInt <$> given_nonzero sort_order)
  /\ (forall header1_text header2_text image_url image_prompt image_generated
        image_generated_at align,
       let d := content_card_data course_id header1_text header2_text image_url
                  image_prompt image_generated image_generated_at align sort_order
                  is_mandatory in
       d !! "courseId" = Some (JStr course_id)
       /\ d !! "cardType" = Some (JStr "content")
       /\ d !! "isMandatory" = Some (JBool is_mandatory)
       /\ d !! "sortOrder" = JInt <$> given_nonzero sort_order)
  /\ (forall question options correct_answer comment,
       let d := quiz_card_data course_id question options correct_answer comment
                  sort_order is_mandatory in
       d !! "courseId" = Some (JStr course_id) /\ d !! "cardType" = Some (JStr "quiz")
       /\ d !! "isMandatory" = Some (JBool is_mandatory)
       /\ d !! "sortOrder" = JInt <$> given_nonzero sort_order)
  /\ (forall question options,
       let d := poll_card_data course_id question options sort_order is_mandatory in
       d !! "courseId" = Some (JStr course_id) /\ d !! "cardType" = Some (JStr "poll")
       /\ d !! "isMandatory" = Some (JBool is_mandatory)
       /\ d !! "sortOrder" = JInt <$> given_nonzero sort_order)
  /\ (forall question,
       let d := form_card_data course_id question sort_order is_mandatory in
       d !! "courseId" = Some (JStr course_id) /\ d !! "cardType" = Some (JStr "form")
       /\ d !! "isMandatory" = Some (JBool is_mandatory)
       /\ d !! "sortOrder" = JInt <$> given_nonzero sort_order)
  /\ (forall video_url,
       let d := video_card_data course_id video_url sort_order is_mandatory in
       d !! "courseId" = Some (JStr course_id) /\ d !! "cardType" = Some (JStr "video")
       /\ d !! "isMandatory" = Some (JBool is_mandatory)
       /\ d !! "sortOrder" = JInt <$> given_nonzero sort_order)
  /\ (forall title link_url link_caption,
       let d := link_card_data course_id title link_url link_caption sort_order in
       d !! "courseId" = Some (JStr course_id) /\ d !! "cardType" = Some (JStr "link")
       /\ d !! "isMandatory" = None
       /\ d !! "sortOrder" = JInt <$> given_nonzero sort_order).
Proof.
  repeat split; intros;
    unfold audio_card_data, content_card_data, quiz_card_data, poll_card_data,
      form_card_data, video_card_data, link_card_data; field.
Qed.

(** X11. In the contents of an audio card each optional text (background
    image, script, the two timestamps, the image prompt) is present exactly
    when it is given and not empty, while the two generated flags are
    recorded whenever given, false included; the title is stored as header1
    without any markup stripping. *)
Theorem audio_card_fields audio_url title background_image_url audio_script
    audio_generated audio_generated_at image_prompt image_generated image_generated_at :
  let c := audio_card_contents audio_url title background_image_url audio_script
             audio_generated audio_generated_at image_prompt image_generated
             image_generated_at in
  c !! "audio" = Some (JStr audio_url)
  /\ c !! "header1" = Some (JStr title)
  /\ c !! "image" = JStr <$> given_text background_image_url
  /\ c !! "audioScript" = JStr <$> given_text audio_script
  /\ c !! "audioGenerated" = JBool <$> audio_generated
  /\ c !! "audioGeneratedAt" = JStr <$> given_text audio_generated_at
  /\ c !! "imagePrompt" = JStr <$> given_text image_prompt
  /\ c !! "imageGenerated" = JBool <$> image_generated
  /\ c !! "imageGeneratedAt" = JStr <$> given_text image_generated_at.
Proof.
  unfold audio_card_contents. repeat split; field.
Qed.

Lemma content_card_plain_lookup k header1_text header2_text image_url align :
  k ∉ ["header2"; "_header2"; "align"; "image"] ->
  content_card_contents header1_text header2_text image_url None None None align !! k
  = ({[ "_header1" := header_object header1_text;
        "header1" := JStr (strip_markup header1_text) ]} : gmap string json) !! k.
Proof.
  intros Hk. rewrite !not_elem_of_cons in Hk. destruct Hk as (?&?&?&?&_).
  cbv beta iota zeta delta [content_card_contents put_truthy_str put_given_bool
                            put_when put_if truthy_bool].
  destruct image_url as [u|]; [destruct (bool_decide (u = ""))|];
    destruct header2_text as [h2|]; try destruct (bool_decide (h2 = ""));
    rewrite ?lookup_insert_ne by done; done.
Qed.

(** X12. In a content card the image and its alignment enter the contents
    together, exactly when image_url is given and not empty, while the
    payload itself always carries align; the prompt, flag and timestamp of the
    image follow the same rules as in an audio card. *)
Theorem content_card_fields course_id header1_text header2_text image_url
    image_prompt image_generated image_generated_at align sort_order is_mandatory :
  let c := content_card_contents header1_text header2_text image_url image_prompt
             image_generated image_generated_at align in
  let d := content_card_data course_id header1_text header2_text image_url
             image_prompt image_generated image_generated_at align sort_order
             is_mandatory in
  d !! "align" = Some (JStr align)
  /\ d !! "contents" = Some (JObj c)
  /\ c !! "image" = JStr <$> given_text image_url
  /\ c !! "align" = (fun _ => JStr align) <$> given_text image_url
  /\ c !! "imagePrompt" = JStr <$> given_text image_prompt
  /\ c !! "imageGenerated" = JBool <$> image_generated
  /\ c !! "imageGeneratedAt" = JStr <$> given_text image_generated_at.
Proof.
  pose proof (fun k => content_card_plain_lookup k header1_text header2_text
                         image_url align) as Hbase.
  cbv beta iota zeta delta [content_card_contents put_truthy_str put_given_bool
                            put_when put_if truthy_bool] in Hbase.
  intros c d. subst c d.
  unfold content_card_data, content_card_contents.
  split; [field|]. split; [field|].
  split; [|split].
  - peel. destruct image_url as [[|a u]|]; destruct header2_text as [[|b h2]|];
      simpl; rewrite ?lookup_insert_ne by done; rewrite ?lookup_insert_eq; done.
  - peel. destruct image_url as [[|a u]|]; destruct header2_text as [[|b h2]|];
      simpl; rewrite ?lookup_insert_ne by done; rewrite ?lookup_insert_eq; done.
  - repeat split.
    + peel. apply (put_truthy_str_fresh "imagePrompt"). by rewrite Hbase by fresh_key.
    + peel. apply (put_given_bool_fresh "imageGenerated"). peel.
      by rewrite Hbase by fresh_key.
    + peel. apply (put_truthy_str_fresh "imageGeneratedAt"). peel.
      by rewrite Hbase by fresh_key.
Qed.

(** ** Update path, the other cases *)

Lemma update_fields_lookups (d : gmap string json) is_mandatory sort_order
    is_active card_type :
  d !! "isMandatory" = None -> d !! "sortOrder" = None ->
  d !! "isActive" = None -> d !! "cardType" = None ->
  let data := update_fields d is_mandatory sort_order is_active card_type in
  data !! "isMandatory" = JBool <$> is_mandatory
  /\ data !! "sortOrder" = JInt <$> sort_order
  /\ data !! "isActive" = JBool <$> is_active
  /\ data !! "cardType" = JStr <$> card_type
  /\ (forall k, k ∉ ["isMandatory"; "sortOrder"; "isActive"; "cardType"] ->
        data !! k = d !! k).
Proof.
  intros H1 H2 H3 H4 data. subst data. unfold update_fields.
  repeat split.
  - peel. by apply put_given_bool_fresh.
  - peel. apply put_given_int_fresh. by peel.
  - peel. apply put_given_bool_fresh. by peel.
  - apply put_given_str_fresh. by peel.
  - intros k Hk. rewrite !not_elem_of_cons in Hk. destruct Hk as (?&?&?&?&_).
    unfold put_given_bool, put_given_int, put_given_str.
    by rewrite !put_if_lookup_ne.
Qed.

(** X13. Without a contents argument update_card never reads the card.  With
    no other field either it is refused with "No update data provided" and
    makes no call.  With at least one other field its only call is one PUT,
    whose body holds exactly the fields that were given, under isMandatory,
    sortOrder, isActive and cardType; a field is sent whenever it is given, so
    sort_order 0 and the flags at false are sent too. *)
Theorem update_card_fields_only (card_id : string) (is_mandatory : option bool)
    (sort_order : option Z) (is_active : option bool) (card_type : option string)
    (t : trace) :
  update_card card_id None None None None None t
  = (Ret (json_dumps lib (error_value "No update data provided")), t)
  /\ (is_Some is_mandatory \/ is_Some sort_order \/ is_Some is_active
   \/ is_Some card_type ->
   exists data result,
     update_card card_id None is_mandatory sort_order is_active card_type t
     = (Ret (json_dumps lib result),
        t ++ [EvHttp (api_call "PUT" ("/api/card/" +:+ card_id) (Some (JObj data)))])
     /\ data !! "isMandatory" = JBool <$> is_mandatory
     /\ data !! "sortOrder" = JInt <$> sort_order
     /\ data !! "isActive" = JBool <$> is_active
     /\ data !! "cardType" = JStr <$> card_type
     /\ (forall k, k ∉ ["isMandatory"; "sortOrder"; "isActive"; "cardType"] ->
           data !! k = None)).
Proof.
  split; [reflexivity|]. intros Hgiven.
  destruct (update_fields_lookups ∅ is_mandatory sort_order is_active card_type)
    as (Hm & Hs & Ha & Hc & Hrest); try done.
  set (data := update_fields ∅ is_mandatory sort_order is_active card_type) in *.
  assert (data <> ∅) as Hne.
  { intros E. rewrite E in Hm, Hs, Ha, Hc. rewrite lookup_empty in Hm, Hs, Ha, Hc.
    destruct Hgiven as [[x ->]|[[x ->]|[[x ->]|[x ->]]]]; done. }
  exists data. eexists. split; [|by repeat split].
  unfold update_card, update_card_put. fold data.
  rewrite bool_decide_eq_false_2 by done.
  unfold bind. by rewrite make_api_request_PUT.
Qed.

Lemma update_card_contents_run card_id partial is_mandatory sort_order is_active
    card_type t card cur t1 :
  make_api_request "GET" ("/api/card/" +:+ card_id) None t = (Ret (JObj card), t1) ->
  card !! "error" = None ->
  default (JObj ∅) (card !! "contents") = JObj cur ->
  update_card card_id (Some partial) is_mandatory sort_order is_active card_type t
  = update_card_put card_id (<["contents" := JObj (dict_merge cur partial)]> ∅)
      is_mandatory sort_order is_active card_type t1.
Proof.
  intros Hget Herr Hcur.
  unfold update_card. unfold bind at 1. rewrite Hget.
  unfold bind at 1, lift, py_in at 1. rewrite Herr.
  unfold bind at 1, py_get at 1. rewrite Hcur.
  by unfold bind at 1, py_unpack at 1.
Qed.

Lemma GET_trace endpoint data t result t1 :
  make_api_request "GET" endpoint data t = (Ret result, t1) ->
  t1 = t ++ [EvHttp (api_call "GET" endpoint None)].
Proof. rewrite make_api_request_GET. by intros [= _ <-]. Qed.

(** X14. Two edges of the merge in update_card.  When the fetched card has no
    contents key the PUT carries the caller's partial contents as they are;
    when the caller's partial is the empty object the PUT carries the fetched
    contents unchanged.  In both cases the other fields given travel in the
    same PUT. *)
Theorem update_card_merge_edges card_id partial is_mandatory sort_order is_active
    card_type t card t1 :
  make_api_request "GET" ("/api/card/" +:+ card_id) None t = (Ret (JObj card), t1) ->
  card !! "error" = None ->
  (card !! "contents" = None \/
   exists cur, card !! "contents" = Some (JObj cur) /\ partial = ∅) ->
  exists data result,
    update_card card_id (Some partial) is_mandatory sort_order is_active card_type t
    = (Ret (json_dumps lib result),
       t ++ [EvHttp (api_call "GET" ("/api/card/" +:+ card_id) None);
             EvHttp (api_call "PUT" ("/api/card/" +:+ card_id) (Some (JObj data)))])
    /\ data !! "contents"
       = Some (default (JObj partial) (card !! "contents"))
    /\ data !! "isMandatory" = JBool <$> is_mandatory
    /\ data !! "sortOrder" = JInt <$> sort_order
    /\ data !! "isActive" = JBool <$> is_active
    /\ data !! "cardType" = JStr <$> card_type.
Proof.
  intros Hget Herr Hcase.
  pose proof (GET_trace _ _ _ _ _ Hget) as ->.
  assert (exists cur, default (JObj ∅) (card !! "contents") = JObj cur
                      /\ default (JObj partial) (card !! "contents")
                         = JObj (dict_merge cur partial)) as (cur & Hcur & Hmerged).
  { destruct Hcase as [Hc|(cur & Hc & ->)]; rewrite Hc; simpl.
    - exists ∅. split; [done|]. unfold dict_merge. by rewrite (right_id_L ∅ (∪)).
    - exists cur. split; [done|]. unfold dict_merge. by rewrite (left_id_L ∅ (∪)). }
  rewrite (update_card_contents_run _ _ _ _ _ _ _ _ _ _ Hget Herr Hcur).
  set (d := <["contents" := JObj (dict_merge cur partial)]> (∅ : gmap string json)).
  rewrite (update_card_put_sends card_id d (JObj (dict_merge cur partial)))
    by apply lookup_insert_eq.
  destruct (update_fields_lookups d is_mandatory sort_order is_active card_type)
    as (Hm & Hs & Ha & Hc & Hrest); try done.
  eexists _, _. rewrite <- app_assoc. split; [reflexivity|].
  rewrite Hmerged, update_fields_contents.
  split; [apply lookup_insert_eq|done].
Qed.

(** X15. When the card was fetched without error but its contents is present
    and is not an object (null, a list, a string, a number), the merge raises
    a TypeError out of update_card and nothing is written: the trace holds
    the GET alone. *)
Theorem update_card_contents_not_a_mapping card_id partial is_mandatory sort_order
    is_active card_type t card v t1 :
  make_api_request "GET" ("/api/card/" +:+ card_id) None t = (Ret (JObj card), t1) ->
  card !! "error" = None ->
  card !! "contents" = Some v ->
  (forall m, v <> JObj m) ->
  update_card card_id (Some partial) is_mandatory sort_order is_active card_type t
  = (Raise (PyExc "TypeError" ("'" +:+ type_name v +:+ "' object is not a mapping")),
     t ++ [EvHttp (api_call "GET" ("/api/card/" +:+ card_id) None)]).
Proof.
  intros Hget Herr Hc Hv.
  pose proof (GET_trace _ _ _ _ _ Hget) as ->.
  unfold update_card. unfold bind at 1. rewrite Hget.
  unfold bind at 1, lift, py_in at 1. rewrite Herr.
  unfold bind at 1, py_get at 1. rewrite Hc. simpl.
  unfold bind, py_unpack. destruct v; try done. by destruct (Hv m).
Qed.

(** X16. When the GET answers with JSON that is not an object at all,
    update_card with a contents argument ends in an exception, never in a
    PUT: the trace holds the GET alone. *)
Theorem update_card_answer_not_an_object card_id partial is_mandatory sort_order
    is_active card_type t v t1 :
  make_api_request "GET" ("/api/card/" +:+ card_id) None t = (Ret v, t1) ->
  (forall m, v <> JObj m) ->
  exists e,
    update_card card_id (Some partial) is_mandatory sort_order is_active card_type t
    = (Raise e, t ++ [EvHttp (api_call "GET" ("/api/card/" +:+ card_id) None)]).
Proof.
  intros Hget Hv.
  pose proof (GET_trace _ _ _ _ _ Hget) as ->.
  unfold update_card. unfold bind at 1. rewrite Hget.
  unfold bind at 1, lift.
  destruct v as [| | | s | l | m]; simpl; try (by eexists); [| |by destruct (Hv m)].
  - destruct (is_substring "error" s); unfold bind; simpl; by eexists.
  - destruct (existsb _ l); unfold bind; simpl; by eexists.
Qed.

(** X17. The merge of update_card composes: an empty partial changes
    nothing, the same partial applied twice is the same as once, and two
    partials applied one after the other give what one update with the second
    laid over the first gives. *)
Theorem dict_merge_composes (cur p1 p2 : gmap string json) :
  dict_merge cur ∅ = cur
  /\ dict_merge (dict_merge cur p1) p1 = dict_merge cur p1
  /\ dict_merge (dict_merge cur p1) p2 = dict_merge cur (dict_merge p1 p2).
Proof.
  unfold dict_merge. split; [by rewrite (left_id_L ∅ (∪))|]. split.
  - by rewrite (assoc_L (∪)), (idemp_L (∪)).
  - by rewrite (assoc_L (∪)).
Qed.

(** ** Image generation, stage by stage *)

Ltac run_monad :=
  cbv beta iota zeta delta [try_except bind send raise_for_status lift ret raise
                            now generate_uuid upload_blob synthesize].

Lemma is_success_2xx r : 200 <= status_code r <= 299 -> is_success r = true.
Proof.
  intros H. unfold is_success.
  by rewrite (proj2 (Z.leb_le _ _)), (proj2 (Z.leb_le _ _)) by lia.
Qed.

(** X18. generate_image_with_azure_openai checks its arguments before it
    calls anyone: a size that the pattern ^\d+x\d+$ does not match, or an
    output format other than "png" and "jpg", raises at once with the stage
    message around the reason, and the trace is left as it was. *)
Theorem generate_image_rejects_bad_arguments prompt size output_format t :
  (re_match_size lib size = false ->
   generate_image_with_azure_openai prompt size output_format t
   = (Raise (PyExc "Exception"
               ("Azure OpenAI image generation failed: "
                +:+ ("Invalid size format: " +:+ size
                     +:+ ". Must be in format 'WIDTHxHEIGHT'"))), t))
  /\ (re_match_size lib size = true -> output_format ∉ ["png"; "jpg"] ->
      generate_image_with_azure_openai prompt size output_format t
      = (Raise (PyExc "Exception"
                  ("Azure OpenAI image generation failed: "
                   +:+ ("Invalid output format: " +:+ output_format
                        +:+ ". Must be 'png' or 'jpg'"))), t)).
Proof.
  unfold generate_image_with_azure_openai. split.
  - intros ->. reflexivity.
  - intros -> Hf. by rewrite bool_decide_eq_false_2.
Qed.

Lemma wrapped_raise {A} (m : M A) (stage : string) t e t' :
  try_except m (fun e => raise (PyExc "Exception" (stage +:+ str_exn e))) t
  = (Raise e, t') ->
  exists reason, e = PyExc "Exception" (stage +:+ reason).
Proof.
  unfold try_except, raise. destruct (m t) as [[a|e0] t0]; [done|].
  intros [= <- _]. by eexists.
Qed.

(** X19. Whatever goes wrong inside a stage, the exception that leaves it is
    a plain Exception whose message starts with the name of the stage: image
    generation, conversion to WebP, upload, and speech synthesis. *)
Theorem stage_errors_are_wrapped t e t' :
  (forall prompt size output_format,
     generate_image_with_azure_openai prompt size output_format t = (Raise e, t') ->
     exists reason,
       e = PyExc "Exception" ("Azure OpenAI image generation failed: " +:+ reason))
  /\ (forall image_bytes quality,
        convert_image_to_webp image_bytes quality t = (Raise e, t') ->
        exists reason,
          e = PyExc "Exception" ("Image conversion to WebP failed: " +:+ reason))
  /\ (forall file_data filename file_type file_extension,
        upload_to_azure file_data filename file_type file_extension t = (Raise e, t') ->
        exists reason,
          e = PyExc "Exception" ("Azure Storage upload failed: " +:+ reason))
  /\ (forall text,
        generate_audio_with_elevenlabs text t = (Raise e, t') ->
        exists reason,
          e = PyExc "Exception" ("ElevenLabs audio generation failed: " +:+ reason)).
Proof.
  repeat split; intros; eapply wrapped_raise; eassumption.
Qed.

Lemma generate_image_decodes prompt size output_format t r result first rest s :
  re_match_size lib size = true ->
  output_format ∈ ["png"; "jpg"] ->
  http_send W t (image_generation_call prompt size output_format) = Ret r ->
  200 <= status_code r <= 299 ->
  json_of r = Ret (JObj result) ->
  result !! "data" = Some (JList (JObj first :: rest)) ->
  first !! "b64_json" = Some (JStr s) ->
  generate_image_with_azure_openai prompt size output_format t
  = (match b64decode lib s with
     | Ret image_bytes => Ret image_bytes
     | Raise e =>
         Raise (PyExc "Exception"
                  ("Azure OpenAI image generation failed: " +:+ str_exn e))
     end,
     t ++ [EvHttp (image_generation_call prompt size output_format)]).
Proof.
  intros Hsz Hf Hs Hc Hj Hd Hb. unfold generate_image_with_azure_openai.
  rewrite Hsz, bool_decide_eq_true_2 by done. simpl negb. cbv iota.
  run_monad. rewrite Hs, (is_success_2xx r Hc), Hj.
  unfold py_in at 1. rewrite Hd. cbv iota.
  unfold py_getitem at 1. rewrite Hd. cbv iota. unfold py_len at 1. cbv iota.
  replace (0 <? Z.of_nat (length (JObj first :: rest))) with true
    by (symmetry; apply Z.ltb_lt; simpl length; lia).
  unfold py_getitem at 1. rewrite Hd. cbv iota.
  unfold py_first, py_getitem. rewrite Hb. unfold py_b64decode.
  by destruct (b64decode lib s).
Qed.

Lemma generate_image_no_data prompt size output_format t r result :
  re_match_size lib size = true ->
  output_format ∈ ["png"; "jpg"] ->
  http_send W t (image_generation_call prompt size output_format) = Ret r ->
  200 <= status_code r <= 299 ->
  json_of r = Ret (JObj result) ->
  result !! "data" = None \/ result !! "data" = Some (JList []) ->
  generate_image_with_azure_openai prompt size output_format t
  = (Raise (PyExc "Exception"
              ("Azure OpenAI image generation failed: "
               +:+ "No image data returned from Azure OpenAI")),
     t ++ [EvHttp (image_generation_call prompt size output_format)]).
Proof.
  intros Hsz Hf Hs Hc Hj Hd. unfold generate_image_with_azure_openai.
  rewrite Hsz, bool_decide_eq_true_2 by done. simpl negb. cbv iota.
  run_monad. rewrite Hs, (is_success_2xx r Hc), Hj.
  unfold py_in at 1. destruct Hd as [Hd|Hd]; rewrite Hd; cbv iota; [done|].
  unfold py_getitem at 1. rewrite Hd. by cbv iota.
Qed.

(** X20. How generate_image_with_azure_openai reads a 2xx answer that is a
    JSON object.  When its data list starts with an object holding a base64
    string under b64_json, the bytes returned are the decoding of that
    string, and later elements of the list are ignored.  When it has no data
    key, or data is an empty list, generation fails with "No image data
    returned from Azure OpenAI" inside the stage message. *)
Theorem generate_image_reads_the_answer prompt size output_format t r result :
  re_match_size lib size = true ->
  output_format ∈ ["png"; "jpg"] ->
  let rq := image_generation_call prompt size output_format in
  http_send W t rq = Ret r ->
  200 <= status_code r <= 299 ->
  json_of r = Ret (JObj result) ->
  (forall first rest s image_bytes,
     result !! "data" = Some (JList (JObj first :: rest)) ->
     first !! "b64_json" = Some (JStr s) ->
     b64decode lib s = Ret image_bytes ->
     generate_image_with_azure_openai prompt size output_format t
     = (Ret image_bytes, t ++ [EvHttp rq]))
  /\ (result !! "data" = None \/ result !! "data" = Some (JList []) ->
      generate_image_with_azure_openai prompt size output_format t
      = (Raise (PyExc "Exception"
                  ("Azure OpenAI image generation failed: "
                   +:+ "No image data returned from Azure OpenAI")),
         t ++ [EvHttp rq])).
Proof.
  intros Hsz Hf rq Hs Hc Hj. split.
  - intros first rest s image_bytes Hd Hb Hdec.
    rewrite (generate_image_decodes _ _ _ _ _ _ _ _ _ Hsz Hf Hs Hc Hj Hd Hb).
    by rewrite Hdec.
  - intros Hd. by apply (generate_image_no_data _ _ _ _ r result).
Qed.

(** X21. upload_to_azure first connects; if that fails nothing is uploaded
    and the failure is raised inside the stage message.  Once connected it
    makes exactly one upload, with overwrite on, into the configured
    container, under <file_type>/<filename>_<first 8 characters of a fresh
    uuid>.<file_extension>, and returns the URL the store answers with. *)
Theorem upload_to_azure_names_the_blob file_data filename file_type file_extension t :
  (forall e,
     blob_connect W (AZURE_STORAGE_CONNECTION_STRING cfg) = Raise e ->
     upload_to_azure file_data filename file_type file_extension t
     = (Raise (PyExc "Exception" ("Azure Storage upload failed: " +:+ str_exn e)), t))
  /\ (blob_connect W (AZURE_STORAGE_CONNECTION_STRING cfg) = Ret tt ->
      let blob_name :=
        file_type +:+ "/" +:+ filename +:+ "_"
        +:+ String.substring 0 8 (uuid4 W t) +:+ "." +:+ file_extension in
      snd (upload_to_azure file_data filename file_type file_extension t)
      = t ++ [EvUpload (AZURE_CONTAINER_NAME cfg) blob_name file_data true]
      /\ (forall url,
            blob_upload W t (AZURE_CONTAINER_NAME cfg) blob_name file_data = Ret url ->
            fst (upload_to_azure file_data filename file_type file_extension t)
            = Ret url)).
Proof.
  unfold upload_to_azure. split.
  - intros e He. run_monad. by rewrite He.
  - intros Hc. run_monad. rewrite Hc. split.
    + by destruct (blob_upload W t _ _ file_data).
    + intros url Hu. by rewrite Hu.
Qed.

(** ** Image and audio pipelines *)

Lemma emits_send P rq : P (EvHttp rq) -> emits P (send rq).
Proof. intros HP t. exists [EvHttp rq]. split; [done|]. by constructor. Qed.

Lemma emits_generate_image prompt size output_format :
  emits (fun ev => is_upload ev = false)
    (generate_image_with_azure_openai prompt size output_format).
Proof.
  unfold generate_image_with_azure_openai.
  apply emits_try_except; [|auto with emits].
  repeat apply emits_if; auto with emits.
  apply emits_bind; [by apply emits_send|]. intros r. auto 20 with emits.
Qed.

Lemma silent_trace {A} (m : M A) t :
  emits (fun _ => False) m -> snd (m t) = t.
Proof.
  intros Hm. destruct (Hm t) as (added & E & F).
  destruct added as [|ev added]; [by rewrite app_nil_r in E|].
  by apply Forall_cons in F as [[] _].
Qed.

(** X22. The image pipeline is all or nothing: when generation raises, or
    when generation succeeds and the conversion to WebP raises,
    generate_and_upload_image raises that same exception and nothing has been
    uploaded. *)
Theorem image_pipeline_is_all_or_nothing prompt title size output_format t e t1 :
  generate_image_with_azure_openai prompt size output_format t = (Raise e, t1)
  \/ (exists image_data t0,
        generate_image_with_azure_openai prompt size output_format t
        = (Ret image_data, t0)
        /\ convert_image_to_webp image_data 85 t0 = (Raise e, t1)) ->
  generate_and_upload_image prompt title size output_format t = (Raise e, t1)
  /\ exists added, t1 = t ++ added /\ Forall (fun ev => is_upload ev = false) added.
Proof.
  intros H. unfold generate_and_upload_image, bind.
  destruct (emits_generate_image prompt size output_format t) as (added & E & F).
  destruct H as [Hg|(image_data & t0 & Hg & Hc)]; rewrite Hg in *; simpl in E; subst.
  - split; [done|]. by exists added.
  - pose proof (silent_trace (convert_image_to_webp image_data 85) (t ++ added)
                  (emits_convert_image_to_webp _ _ _)) as Hs.
    rewrite Hc in *. simpl in Hs. subst t1. split; [done|]. by exists added.
Qed.

(** X23. The whole image pipeline on an image with an alpha channel or a
    palette.  When the provider answers with a base64 image, the image opens
    in mode RGBA or P, and every stage succeeds, generate_and_upload_image
    makes two calls: the generation request, then one upload of the WebP
    encoding (quality 85, optimised) of the image converted to RGB, under
    images/<title with spaces as underscores, then lower()>_<8 characters>.webp;
    it returns the URL of that upload. *)
Theorem image_pipeline_flattens_alpha prompt title size output_format t r result
    first rest s png (img rgb : image W) webp url :
  re_match_size lib size = true ->
  output_format ∈ ["png"; "jpg"] ->
  let rq := image_generation_call prompt size output_format in
  let t1 := t ++ [EvHttp rq] in
  let blob_name :=
    "images/" +:+ str_lower lib (replace " " "_" title) +:+ "_"
    +:+ String.substring 0 8 (uuid4 W t1) +:+ ".webp" in
  http_send W t rq = Ret r ->
  200 <= status_code r <= 299 ->
  json_of r = Ret (JObj result) ->
  result !! "data" = Some (JList (JObj first :: rest)) ->
  first !! "b64_json" = Some (JStr s) ->
  b64decode lib s = Ret png ->
  image_open W png = Ret img ->
  image_mode W img ∈ ["RGBA"; "P"] ->
  image_convert W img "RGB" = Ret rgb ->
  image_save W rgb "WebP" 85 true = Ret webp ->
  blob_connect W (AZURE_STORAGE_CONNECTION_STRING cfg) = Ret tt ->
  blob_upload W t1 (AZURE_CONTAINER_NAME cfg) blob_name webp = Ret url ->
  generate_and_upload_image prompt title size output_format t
  = (Ret url, t1 ++ [EvUpload (AZURE_CONTAINER_NAME cfg) blob_name webp true]).
Proof.
  intros Hsz Hf rq t1 blob_name Hs Hc Hj Hd Hb Hdec Hopen Hmode Hconv Hsave Hconn Hup.
  subst rq t1 blob_name.
  unfold generate_and_upload_image. unfold bind at 1.
  rewrite (generate_image_decodes _ _ _ _ _ _ _ _ _ Hsz Hf Hs Hc Hj Hd Hb), Hdec.
  unfold convert_image_to_webp, upload_to_azure. run_monad.
  rewrite Hopen, bool_decide_eq_true_2 by done. rewrite Hconv, Hsave, Hconn.
  match goal with
  | |- context [blob_upload W ?a ?b ?c ?d] =>
      assert (blob_upload W a b c d = Ret url) as Hup' by exact Hup; rewrite Hup'
  end.
  reflexivity.
Qed.

Lemma reported_not_raised {A} (m : M A) (report : exn -> A) t :
  match m t with
  | (Ret a, t') => try_except m (fun e => ret (report e)) t = (Ret a, t')
  | (Raise e, t') => try_except m (fun e => ret (report e)) t = (Ret (report e), t')
  end.
Proof. unfold try_except, ret. by destruct (m t) as [[a|e] t']. Qed.

(** X24. The three media tools never raise.  generate_image_from_text,
    generate_background_image_for_audio and generate_audio_from_text always
    return a text; when the pipeline behind the background-image tool or the
    audio tool raises, that text is "Error: " followed by the message. *)
Theorem media_tools_never_raise prompt title aspect_ratio output_format t :
  (exists s,
     fst (generate_image_from_text prompt title aspect_ratio output_format t) = Ret s)
  /\ (exists s, fst (generate_background_image_for_audio prompt title t) = Ret s)
  /\ (exists s, fst (generate_audio_from_text prompt title t) = Ret s)
  /\ (forall e t',
        generate_and_upload_image prompt title "1024x1536" "png" t = (Raise e, t') ->
        generate_background_image_for_audio prompt title t
        = (Ret ("Error: " +:+ str_exn e), t'))
  /\ (forall e t',
        generate_and_upload_audio prompt title t = (Raise e, t') ->
        generate_audio_from_text prompt title t
        = (Ret ("Error: " +:+ str_exn e), t')).
Proof.
  split; [|split; [|split; [|split]]].
  - unfold generate_image_from_text.
    match goal with |- context [try_except ?m ?h t] =>
      pose proof (reported_not_raised m (fun e => "Error: " +:+ str_exn e) t) as H;
      destruct (m t) as [[a|e] t']; rewrite H; by eexists end.
  - unfold generate_background_image_for_audio.
    match goal with |- context [try_except ?m ?h t] =>
      pose proof (reported_not_raised m (fun e => "Error: " +:+ str_exn e) t) as H;
      destruct (m t) as [[a|e] t']; rewrite H; by eexists end.
  - unfold generate_audio_from_text.
    match goal with |- context [try_except ?m ?h t] =>
      pose proof (reported_not_raised m (fun e => "Error: " +:+ str_exn e) t) as H;
      destruct (m t) as [[a|e] t']; rewrite H; by eexists end.
  - intros e t' H. unfold generate_background_image_for_audio. run_monad.
    by rewrite H.
  - intros e t' H. unfold generate_audio_from_text. run_monad. by rewrite H.
Qed.

(** X25. generate_image_from_text refuses an output format other than "png"
    and "jpg" (the comparison is exact, so "PNG" is refused) by returning the
    text "Error: Invalid output format ..."; it makes no call, whatever the
    aspect ratio. *)
Theorem generate_image_from_text_refuses_format prompt title aspect_ratio
    output_format t :
  output_format ∉ ["png"; "jpg"] ->
  generate_image_from_text prompt title aspect_ratio (Some output_format) t
  = (Ret ("Error: Invalid output format '" +:+ output_format
          +:+ "'. Must be 'png' or 'jpg'"), t).
Proof.
  intros Hf. unfold generate_image_from_text. run_monad. simpl default.
  by rewrite bool_decide_eq_false_2.
Qed.

(** ** File names and sizes *)

Lemma prefix_empty s : String.prefix "" s = true.
Proof. by destruct s. Qed.

Lemma replace_space_underscore s :
  replace " " "_" s
  = map_string (fun c => if bool_decide (c = " "%char) then "_"%char else c) s.
Proof.
  unfold replace. induction s as [|c s IH]; [done|].
  cbn [replace_from map_string String.prefix].
  destruct (ascii_dec " " c) as [<-|Hc].
  - rewrite prefix_empty, bool_decide_eq_true_2 by done. simpl String.length.
    simpl Nat.sub. by rewrite IH.
  - rewrite bool_decide_eq_false_2 by done. by rewrite IH.
Qed.

Lemma normalised_char c :
  let d := lower_ascii (if bool_decide (c = " "%char) then "_"%char else c) in
  d <> " "%char
  /\ (N.leb 65 (N_of_ascii d) && N.leb (N_of_ascii d) 90) = false.
Proof.
  destruct c as [[] [] [] [] [] [] [] []]; vm_compute; split; done.
Qed.

Lemma replace_space_is_ascii s :
  is_ascii s = true -> is_ascii (replace " " "_" s) = true.
Proof.
  rewrite replace_space_underscore.
  induction s as [|c s IH]; [done|]. cbn [is_ascii map_string].
  intros [Hc Hs]%andb_true_iff. rewrite (IH Hs), andb_true_r.
  case_bool_decide; [done|exact Hc].
Qed.

(** X26. For a title of ASCII characters, the file name the two pipelines
    derive from it, the title with spaces replaced by underscores and then
    lower-cased, has the length of the title and contains no space and no
    upper-case ASCII letter. *)
Theorem file_name_is_normalised title :
  is_ascii title = true ->
  let filename := str_lower lib (replace " " "_" title) in
  String.length filename = String.length title
  /\ no_char " " filename = true
  /\ no_upper_case filename = true.
Proof.
  intros Hascii filename. subst filename.
  rewrite str_lower_ascii by by apply replace_space_is_ascii.
  clear Hascii. rewrite replace_space_underscore.
  unfold lower. induction title as [|c s (IH1 & IH2 & IH3)]; [done|].
  cbn [map_string String.length no_char no_upper_case].
  destruct (normalised_char c) as [Hsp Hup].
  rewrite IH1, IH2, IH3, Hup, bool_decide_eq_false_2 by done. done.
Qed.

Lemma all_digits_cons c s :
  all_digits (String c s) = true -> is_digit c = true /\ all_digits s = true.
Proof.
  unfold all_digits. cbn [drop_digits]. by destruct (is_digit c).
Qed.

Lemma drop_digits_app w rest :
  all_digits w = true -> starts_with_digit rest = false ->
  drop_digits (w +:+ rest) = rest.
Proof.
  intros Hw Hr. induction w as [|c w IH].
  - destruct rest as [|d rest]; [done|]. simpl in Hr.
    change ("" +:+ String d rest) with (String d rest).
    cbn [drop_digits]. by rewrite Hr.
  - apply all_digits_cons in Hw as [Hc Hw].
    change (String c w +:+ rest) with (String c (w +:+ rest)).
    cbn [drop_digits]. rewrite Hc. by apply IH.
Qed.

Lemma digits_split s :
  exists w, all_digits w = true /\ s = w +:+ drop_digits s
            /\ (starts_with_digit s = true -> w <> "").
Proof.
  induction s as [|c s (w & Hw & Hs & _)].
  - by exists "".
  - cbn [drop_digits starts_with_digit]. destruct (is_digit c) eqn:Hc.
    + exists (String c w). split; [|split; [|done]].
      * unfold all_digits in *. cbn [drop_digits]. by rewrite Hc.
      * change (String c w +:+ drop_digits s) with (String c (w +:+ drop_digits s)).
        by rewrite <- Hs.
    + by exists "".
Qed.

Lemma starts_with_digit_app w rest :
  all_digits w = true -> w <> "" -> starts_with_digit (w +:+ rest) = true.
Proof.
  intros Hw Hne. destruct w as [|c w]; [done|].
  by apply all_digits_cons in Hw as [Hc _].
Qed.

Lemma append_empty_r s : s +:+ "" = s.
Proof.
  induction s as [|c s IH]; [done|].
  change (String c s +:+ "") with (String c (s +:+ "")). by rewrite IH.
Qed.

(** X27. Among the sizes written in ASCII characters, the size check accepts
    exactly those made of one or more digits, an x, and one or more digits,
    optionally followed by one final newline (Python's $ also matches before
    a trailing newline). *)
Theorem size_pattern_characterised size :
  is_ascii size = true ->
  re_match_size lib size = true <->
  exists w h,
    all_digits w = true /\ w <> "" /\ all_digits h = true /\ h <> ""
    /\ (size = w +:+ "x" +:+ h \/ size = w +:+ "x" +:+ h +:+ nl).
Proof.
  intros Hascii. rewrite (re_match_size_ascii lib size Hascii). clear Hascii.
  unfold size_pattern_matches. split.
  - intros H. apply andb_true_iff in H as [H1 H2].
    destruct (digits_split size) as (w & Hw & Hs & Hwne).
    destruct (drop_digits size) as [|c r] eqn:Hd; [done|].
    destruct (ascii_dec c "x") as [->|Hc].
    2:{ exfalso. revert H2. clear -Hc.
        destruct c as [[] [] [] [] [] [] [] []]; done. }
    apply andb_true_iff in H2 as [H2 H3].
    destruct (digits_split r) as (h & Hh & Hr & Hhne).
    exists w, h. repeat split; auto.
    destruct (drop_digits r) as [|d [|? ?]] eqn:Hdr; simpl in H3; try done.
    + left. rewrite Hs, Hr. by rewrite append_empty_r.
    + right. apply bool_decide_eq_true in H3 as ->. by rewrite Hs, Hr.
  - intros (w & h & Hw & Hwne & Hh & Hhne & Hs).
    assert (drop_digits h = "") as Hdh by (unfold all_digits in Hh; by destruct (drop_digits h)).
    assert (starts_with_digit h = true) as Hsh.
    { rewrite <- (append_empty_r h). by apply starts_with_digit_app. }
    destruct Hs as [-> | ->].
    + rewrite starts_with_digit_app, drop_digits_app by done.
      change ("x" +:+ h) with (String "x" h). cbv iota. simpl andb.
      by rewrite Hsh, Hdh.
    + rewrite starts_with_digit_app, drop_digits_app by done.
      change ("x" +:+ h +:+ nl) with (String "x" (h +:+ nl)). cbv iota. simpl andb.
      rewrite starts_with_digit_app, drop_digits_app by done. done.
Qed.

(** ** Courses *)

(** X28. create_course never raises and makes exactly one call, a POST to
    /api/createCourse.  The payload always has createdByAgent true, the
    configured company and an id drawn when the call starts; title, duration
    (null when none is given) and the three flags are stored as given; each
    of the six optional texts is present exactly when it is given and not
    empty. *)
Theorem create_course_payload title duration description folder_id
    finalized_course_plan is_published is_autoplay is_scorable gradient_from_color
    gradient_to_color theme_id t :
  exists data result,
    create_course title duration description folder_id finalized_course_plan
      is_published is_autoplay is_scorable gradient_from_color gradient_to_color
      theme_id t
    = (Ret (json_dumps lib result),
       t ++ [EvHttp (api_call "POST" "/api/createCourse" (Some (JObj data)))])
    /\ data !! "id" = Some (JStr (uuid4 W t))
    /\ data !! "createdByAgent" = Some (JBool true)
    /\ data !! "companyId" = Some (JStr COMPANY_ID)
    /\ data !! "title" = Some (JStr title)
    /\ data !! "duration"
       = Some (match duration with Some minutes => JInt minutes | None => JNull end)
    /\ data !! "isPublished" = Some (JBool is_published)
    /\ data !! "isAutoplay" = Some (JBool is_autoplay)
    /\ data !! "isScorable" = Some (JBool is_scorable)
    /\ data !! "description" = JStr <$> given_text description
    /\ data !! "folderId" = JStr <$> given_text folder_id
    /\ data !! "finalizedCoursePlan" = JStr <$> given_text finalized_course_plan
    /\ data !! "gradientFromColor" = JStr <$> given_text gradient_from_color
    /\ data !! "gradientToColor" = JStr <$> given_text gradient_to_color
    /\ data !! "themeId" = JStr <$> given_text theme_id.
Proof.
  unfold create_course. run_monad. rewrite make_api_request_POST.
  eexists _, _. split; [reflexivity|].
  unfold course_payload. repeat split; field.
Qed.

(** ** Audio *)

(** X29. The audio pipeline.  When synthesis raises, generate_and_upload_audio
    raises with the ElevenLabs stage message and nothing is uploaded.  When
    synthesis yields chunks and the store accepts the connection, the only
    event is one upload of the chunks joined in order, under
    audio/<title with spaces as underscores, then lower()>_<8 characters>.mp3;
    no HTTP request to the content API is made. *)
Theorem audio_pipeline text title t :
  (forall e,
     text_to_speech_convert V t (ELEVENLABS_API_KEY V) text (ELEVENLABS_VOICE_ID V)
       "eleven_v3" = Raise e ->
     generate_and_upload_audio text title t
     = (Raise (PyExc "Exception"
                 ("ElevenLabs audio generation failed: " +:+ str_exn e)), t))
  /\ (forall chunks,
        text_to_speech_convert V t (ELEVENLABS_API_KEY V) text (ELEVENLABS_VOICE_ID V)
          "eleven_v3" = Ret chunks ->
        blob_connect W (AZURE_STORAGE_CONNECTION_STRING cfg) = Ret tt ->
        snd (generate_and_upload_audio text title t)
        = t ++ [EvUpload (AZURE_CONTAINER_NAME cfg)
                  ("audio/" +:+ str_lower lib (replace " " "_" title) +:+ "_"
                   +:+ String.substring 0 8 (uuid4 W t) +:+ ".mp3")
                  (concat chunks) true]).
Proof.
  unfold generate_and_upload_audio, generate_audio_with_elevenlabs, upload_to_azure.
  split.
  - intros e He. run_monad. by rewrite He.
  - intros chunks Hc Hconn. run_monad. rewrite Hc, Hconn.
    by destruct (blob_upload W t _ _ (concat chunks)).
Qed.

(** ** Header markup on ordinary text *)

(** X30. On a header that is a sequence of the four tags and of stretches of
    text without any <, the four replacements of create_content_card delete
    the tags and nothing else; in particular a header without any < is stored
    unchanged in header1. *)
Theorem header_markup_is_removed :
  (forall ps,
     forallb markup_piece ps = true ->
     strip_markup (join ps) = join (filter (fun p => p ∉ markup_tags) ps))
  /\ (forall s, no_open_bracket s = true -> strip_markup s = s).
Proof.
  assert (forall ps,
            forallb markup_piece ps = true ->
            strip_markup (join ps) = join (filter (fun p => p ∉ markup_tags) ps))
    as Hjoin.
  { intros ps Hps. by rewrite strip_markup_on_markup, spec_join. }
  split; [exact Hjoin|].
  intros s Hs.
  assert (s ∉ markup_tags) as Hnot.
  { intros Hin. unfold markup_tags in Hin.
    repeat (apply elem_of_cons in Hin as [->|Hin]); try done.
    by apply elem_of_nil in Hin. }
  specialize (Hjoin [s]). simpl in Hjoin.
  rewrite filter_cons, decide_True in Hjoin by done.
  rewrite filter_nil in Hjoin. simpl in Hjoin. rewrite append_empty_r in Hjoin.
  apply Hjoin. unfold markup_piece. by rewrite Hs, orb_true_r.
Qed.

End Server.

(** * The claims on concrete inputs *)

Example upper_lower_ascii :
  upper "post" = "POST" /\ upper "Put" = "PUT" /\ lower "PoRtrAiT" = "portrait".
Proof. repeat split. Qed.

Example replace_left_to_right :
  replace "aa" "b" "aaa" = "ba" /\ replace " " "_" "My Cat Photo" = "My_Cat_Photo".
Proof. repeat split. Qed.

Example size_pattern_examples :
  size_pattern_matches "1024x1536" = true
  /\ size_pattern_matches "1024x" = false
  /\ size_pattern_matches "x1024" = false
  /\ size_pattern_matches "10 24x1536" = false.
Proof. repeat split. Qed.

Example strip_markup_examples :
  strip_markup "<b>Hi</b> <i>there</i>" = "Hi there"
  /\ strip_markup "<B>Hi</B> <u>there</u>" = "<B>Hi</B> <u>there</u>"
  /\ spec_remove_tags "<b>Hi</b> <i>there</i>" = "Hi there".
Proof. repeat split. Qed.

(** C9 does not hold as worded.  On header1_text = "<i<b>>" the only tag in
    the text is the <b> in the middle, and the text without it is "<i>"; the
    code's second-to-last replacement then deletes that "<i>" too, so header1
    is empty.  And header2_text = "" is supplied, yet the contents have
    neither _header2 nor header2. *)
Lemma content_card_headers_counterexample :
  let contents :=
    content_card_contents "<i<b>>" (Some "") None None None None "center center" in
  spec_remove_tags "<i<b>>" = "<i>"
  /\ contents !! "header1" = Some (JStr "")
  /\ contents !! "header1" <> Some (JStr (spec_remove_tags "<i<b>>"))
  /\ contents !! "_header2" = None
  /\ contents !! "header2" = None.
Proof. repeat split; done. Qed.

(** C8 on a DELETE, which is refused without a call, and on a "get" that the
    server answers with 404. *)
Lemma make_api_request_error_values_witness :
  let W := sample_world 404 "Not Found" JNull in
  make_api_request default_config sample_lib W "DELETE" "/api/card/k1" None []
  = (Ret (error_value "Unsupported HTTP method: DELETE"), [])
  /\ make_api_request default_config sample_lib W "get" "/api/card/k1" None []
     = (Ret (error_value "HTTP 404: Not Found"),
        [EvHttp (api_call default_config "GET" "/api/card/k1" None)]).
Proof.
  intros W. split.
  - apply (make_api_request_error_values default_config sample_lib W
             "DELETE" "/api/card/k1" None []); done.
  - apply (proj2 (make_api_request_error_values default_config sample_lib W
                    "get" "/api/card/k1" None [])
             "GET" {| status_code := 404; text := "Not Found"; json_of := Ret JNull |}).
    + reflexivity.
    + apply list_elem_of_here.
    + reflexivity.
    + simpl. lia.
Defined.

(** C1 on the fetch {"a":1,"b":2} and the partial {"b":3,"c":4}. *)
Lemma update_card_merges_contents_witness :
  let fetched : gmap string json :=
    {[ "id" := JStr "k1"; "contents" := JObj {[ "a" := JInt 1; "b" := JInt 2 ]} ]} in
  let partial : gmap string json := {[ "b" := JInt 3; "c" := JInt 4 ]} in
  let W := sample_world 200 "" (JObj fetched) in
  exists data merged result,
    update_card default_config sample_lib W "k1" (Some partial) None None None None []
    = (Ret (json_dumps sample_lib result),
       [EvHttp (api_call default_config "GET" "/api/card/k1" None);
        EvHttp (api_call default_config "PUT" "/api/card/k1" (Some (JObj data)))])
    /\ data !! "contents" = Some (JObj merged)
    /\ merged = {[ "a" := JInt 1; "b" := JInt 3; "c" := JInt 4 ]}.
Proof.
  intros fetched partial W.
  destruct (update_card_merges_contents default_config sample_lib W "k1" partial
              None None None None [] fetched {[ "a" := JInt 1; "b" := JInt 2 ]}
              [EvHttp (api_call default_config "GET" "/api/card/k1" None)])
    as (data & merged & result & Hrun & Hdata & Hcaller & Hserver);
    [reflexivity | reflexivity | reflexivity |].
  exists data, merged, result. split; [exact Hrun|]. split; [exact Hdata|].
  apply map_eq. intros k.
  destruct (partial !! k) as [v|] eqn:Hk.
  - rewrite (Hcaller k v Hk).
    change (Some v = (partial ∪ {[ "a" := JInt 1; "b" := JInt 2 ]}) !! k).
    symmetry. by apply lookup_union_Some_l.
  - rewrite (Hserver k Hk).
    change (({[ "a" := JInt 1; "b" := JInt 2 ]} : gmap string json) !! k
            = (partial ∪ {[ "a" := JInt 1; "b" := JInt 2 ]}) !! k).
    symmetry. by apply lookup_union_r.
Defined.

(** C4 on a server that answers the GET with 500. *)
Lemma update_card_aborts_on_read_error_witness :
  let W := sample_world 500 "boom" JNull in
  update_card default_config sample_lib W "k1" (Some {[ "b" := JInt 3 ]})
    None None None None []
  = (Ret (json_dumps sample_lib
            (error_value "Failed to fetch card for update: HTTP 500: boom")),
     [EvHttp (api_call default_config "GET" "/api/card/k1" None)]).
Proof.
  intros W.
  apply (update_card_aborts_on_read_error default_config sample_lib W "k1"
           {[ "b" := JInt 3 ]} None None None None []
           {[ "error" := JStr "HTTP 500: boom" ]} (JStr "HTTP 500: boom")
           [EvHttp (api_call default_config "GET" "/api/card/k1" None)]);
    reflexivity.
Defined.

(** C2 on options ["a"] with correct answer "a". *)
Lemma create_quiz_card_rejects_witness :
  let W := sample_world 200 "" JNull in
  create_quiz_card default_config sample_lib W "c1" "Q" ["a"] "a" None None true []
  = (Ret (json_dumps sample_lib (error_value "Quiz must have 2-4 options")), []).
Proof.
  intros W.
  destruct (create_quiz_card_rejects default_config sample_lib W "c1" "Q" ["a"] "a"
              None None true []) as (msg & Hrun & Hmsg).
  - left. simpl. lia.
  - rewrite Hrun, Hmsg; [reflexivity|]. left. simpl. lia.
Defined.

(** C6 on the question "2+2?" with options 3, 4, 5 and correct answer 4. *)
Lemma create_quiz_card_payload_witness :
  let W := sample_world 200 "" JNull in
  exists card_data contents result,
    create_quiz_card default_config sample_lib W "c1" "2+2?" ["3"; "4"; "5"] "4"
      None None true []
    = (Ret (json_dumps sample_lib result),
       [EvHttp (api_call default_config "POST" "/api/createCard"
                  (Some (JObj card_data)))])
    /\ card_data !! "cardType" = Some (JStr "quiz")
    /\ card_data !! "contents" = Some (JObj contents)
    /\ contents !! "options" = Some (JList [JStr "3"; JStr "4"; JStr "5"])
    /\ contents !! "correct" = Some (JList [JStr "4"]).
Proof.
  intros W.
  apply (create_quiz_card_payload default_config sample_lib W "c1" "2+2?"
           ["3"; "4"; "5"] "4" None None true []).
  - simpl. lia.
  - apply list_elem_of_further, list_elem_of_here.
Defined.

(** C5 on "portrait" and on "bogus". *)
Lemma aspect_ratio_sizes_witness :
  let W := sample_world 200 "" JNull in
  (exists added,
     snd (generate_image_from_text default_config sample_lib W "a cat" "My Cat"
            (Some "portrait") None [])
     = EvHttp (image_generation_call default_config "a cat" "1024x1536" "png") :: added)
  /\ (exists added,
        snd (generate_image_from_text default_config sample_lib W "a cat" "My Cat"
               (Some "bogus") None [])
        = EvHttp (image_generation_call default_config "a cat" "1024x1024" "png") :: added)
  /\ generate_image_from_text default_config sample_lib W "a cat" "My Cat"
       (Some "bogus") None
     = generate_image_from_text default_config sample_lib W "a cat" "My Cat"
         (Some "square") None.
Proof.
  intros W.
  destruct (aspect_ratio_sizes default_config sample_lib W "a cat" "My Cat")
    as (Hsize & Hfallback & _).
  assert (str_lower sample_lib "bogus" ∉ ["square"; "portrait"; "landscape"])
    as Hbogus.
  { rewrite !not_elem_of_cons. repeat split; solve [done | apply not_elem_of_nil]. }
  split; [|split].
  - destruct (Hsize (Some "portrait") None "1024x1536" []) as (added & body & H & _).
    + apply list_elem_of_here.
    + right. left. split; reflexivity.
    + by exists added.
  - destruct (Hsize (Some "bogus") None "1024x1024" []) as (added & body & H & _).
    + apply list_elem_of_here.
    + right. right. right. split; [exact Hbogus|reflexivity].
    + by exists added.
  - by apply Hfallback.
Defined.

(** * The further properties on concrete inputs *)

Ltac member :=
  match goal with |- ?P => apply (bool_decide_eq_true_1 P); reflexivity end.
Ltac not_member :=
  match goal with |- ~ ?P => apply (bool_decide_eq_false_1 P); reflexivity end.

(** X2 on a "post" answered 200 with a JSON object. *)
Lemma make_api_request_returns_body_witness :
  let W := sample_world 200 "" (JObj {[ "id" := JStr "k1" ]}) in
  make_api_request default_config sample_lib W "post" "/api/createCard" (Some JNull) []
  = (Ret (JObj {[ "id" := JStr "k1" ]}),
     [EvHttp (api_call default_config "POST" "/api/createCard" (Some JNull))]).
Proof.
  intros W.
  apply (make_api_request_returns_body default_config sample_lib W "post"
           "/api/createCard" (Some JNull) [] "POST"
           {| status_code := 200; text := "";
              json_of := Ret (JObj {[ "id" := JStr "k1" ]}) |}).
  - reflexivity.
  - member.
  - reflexivity.
  - simpl. lia.
  - reflexivity.
Defined.

(** X3 on a GET whose connection is refused. *)
Lemma make_api_request_request_failed_witness :
  let W := failing_world (PyExc "ConnectError" "connection refused") in
  make_api_request default_config sample_lib W "GET" "/api/card/k1" None []
  = (Ret (error_value "Request failed: connection refused"),
     [EvHttp (api_call default_config "GET" "/api/card/k1" None)]).
Proof.
  intros W.
  apply (make_api_request_request_failed default_config sample_lib W "GET"
           "/api/card/k1" None [] "GET" "ConnectError" "connection refused").
  - reflexivity.
  - member.
  - left. reflexivity.
Defined.

(** X5 on "put". *)
Lemma make_api_request_ignores_case_witness :
  let W := sample_world 200 "" JNull in
  make_api_request default_config sample_lib W "put" "/api/card/k1" (Some JNull)
  = make_api_request default_config sample_lib W "PUT" "/api/card/k1" (Some JNull).
Proof.
  intros W.
  apply (make_api_request_ignores_case default_config sample_lib W "put"
           "/api/card/k1" (Some JNull)).
  member.
Defined.

(** X7 on a poll with one option. *)
Lemma create_poll_card_rejects_witness :
  let W := sample_world 200 "" JNull in
  create_poll_card default_config sample_lib W "c1" "Tea or coffee?" ["tea"] None false []
  = (Ret (json_dumps sample_lib (error_value "Poll must have 2-4 options")), []).
Proof.
  intros W.
  apply (create_poll_card_rejects default_config sample_lib W "c1" "Tea or coffee?"
           ["tea"] None false []).
  left. simpl. lia.
Defined.

(** X8 on a poll with two options. *)
Lemma create_poll_card_payload_witness :
  let W := sample_world 200 "" JNull in
  exists card_data result,
    create_poll_card default_config sample_lib W "c1" "Tea or coffee?"
      ["tea"; "coffee"] None false []
    = (Ret (json_dumps sample_lib result),
       [EvHttp (api_call default_config "POST" "/api/createCard"
                  (Some (JObj card_data)))])
    /\ card_data !! "cardType" = Some (JStr "poll")
    /\ card_data !! "contents"
       = Some (JObj {[ "_header1" := header_object "Tea or coffee?";
                       "options" := JList [JStr "tea"; JStr "coffee"] ]}).
Proof.
  intros W.
  apply (create_poll_card_payload default_config sample_lib W "c1" "Tea or coffee?"
           ["tea"; "coffee"] None false []).
  simpl. lia.
Defined.

(** X13 on sort_order 0 and is_mandatory false, which are both sent. *)
Lemma update_card_fields_only_witness :
  let W := sample_world 200 "" JNull in
  exists data result,
    update_card default_config sample_lib W "k1" None (Some false) (Some 0) None None []
    = (Ret (json_dumps sample_lib result),
       [EvHttp (api_call default_config "PUT" "/api/card/k1" (Some (JObj data)))])
    /\ data !! "isMandatory" = Some (JBool false)
    /\ data !! "sortOrder" = Some (JInt 0)
    /\ data !! "contents" = None.
Proof.
  intros W.
  destruct (proj2 (update_card_fields_only default_config sample_lib W "k1"
                     (Some false) (Some 0) None None []))
    as (data & result & Hrun & Hm & Hs & _ & _ & Hrest).
  - left. by eexists.
  - exists data, result.
    split; [exact Hrun|]. split; [exact Hm|]. split; [exact Hs|].
    apply Hrest. not_member.
Defined.

(** X14 on a fetched card without contents. *)
Lemma update_card_merge_edges_witness :
  let W := sample_world 200 "" (JObj {[ "id" := JStr "k1" ]}) in
  let partial : gmap string json := {[ "b" := JInt 3 ]} in
  exists data result,
    update_card default_config sample_lib W "k1" (Some partial) None None None None []
    = (Ret (json_dumps sample_lib result),
       [EvHttp (api_call default_config "GET" "/api/card/k1" None);
        EvHttp (api_call default_config "PUT" "/api/card/k1" (Some (JObj data)))])
    /\ data !! "contents" = Some (JObj partial).
Proof.
  intros W partial.
  destruct (update_card_merge_edges default_config sample_lib W "k1" partial
              None None None None [] {[ "id" := JStr "k1" ]}
              [EvHttp (api_call default_config "GET" "/api/card/k1" None)])
    as (data & result & Hrun & Hc & _); [reflexivity|reflexivity|by left|].
  exists data, result. split; [exact Hrun|exact Hc].
Defined.

(** X15 on a fetched card whose contents is null. *)
Lemma update_card_contents_not_a_mapping_witness :
  let W := sample_world 200 "" (JObj {[ "contents" := JNull ]}) in
  update_card default_config sample_lib W "k1" (Some {[ "b" := JInt 3 ]})
    None None None None []
  = (Raise (PyExc "TypeError" "'NoneType' object is not a mapping"),
     [EvHttp (api_call default_config "GET" "/api/card/k1" None)]).
Proof.
  intros W.
  apply (update_card_contents_not_a_mapping default_config sample_lib W "k1"
           {[ "b" := JInt 3 ]} None None None None [] {[ "contents" := JNull ]} JNull
           [EvHttp (api_call default_config "GET" "/api/card/k1" None)]);
    try reflexivity.
  intros m. discriminate.
Defined.

(** X16 on a GET answered with an empty JSON list. *)
Lemma update_card_answer_not_an_object_witness :
  let W := sample_world 200 "" (JList []) in
  exists e,
    update_card default_config sample_lib W "k1" (Some {[ "b" := JInt 3 ]})
      None None None None []
    = (Raise e, [EvHttp (api_call default_config "GET" "/api/card/k1" None)]).
Proof.
  intros W.
  apply (update_card_answer_not_an_object default_config sample_lib W "k1"
           {[ "b" := JInt 3 ]} None None None None [] (JList [])
           [EvHttp (api_call default_config "GET" "/api/card/k1" None)]).
  - reflexivity.
  - intros m. discriminate.
Defined.

(** X18 on the size "wide" and on the format "gif". *)
Lemma generate_image_rejects_bad_arguments_witness :
  let W := sample_world 200 "" JNull in
  generate_image_with_azure_openai default_config sample_lib W "a cat" "wide" "png" []
  = (Raise (PyExc "Exception"
              "Azure OpenAI image generation failed: Invalid size format: wide. Must be in format 'WIDTHxHEIGHT'"),
     [])
  /\ generate_image_with_azure_openai default_config sample_lib W "a cat" "1024x1024"
       "gif" []
     = (Raise (PyExc "Exception"
                 "Azure OpenAI image generation failed: Invalid output format: gif. Must be 'png' or 'jpg'"),
        []).
Proof.
  intros W. split.
  - apply (proj1 (generate_image_rejects_bad_arguments default_config sample_lib W
                    "a cat" "wide" "png" [])).
    reflexivity.
  - apply (proj2 (generate_image_rejects_bad_arguments default_config sample_lib W
                    "a cat" "1024x1024" "gif" [])).
    + reflexivity.
    + not_member.
Defined.

(** X19 on a store that refuses the connection. *)
Lemma stage_errors_are_wrapped_witness :
  let W := failing_world (PyExc "OSError" "network down") in
  exists e reason,
    upload_to_azure default_config W [] "cat" "images" "webp" [] = (Raise e, [])
    /\ e = PyExc "Exception" ("Azure Storage upload failed: " +:+ reason).
Proof.
  intros W.
  exists (PyExc "Exception" "Azure Storage upload failed: network down").
  destruct (proj1 (proj2 (proj2 (stage_errors_are_wrapped default_config sample_lib W
                                   (sample_speech (Ret [])) []
                                   (PyExc "Exception"
                                      "Azure Storage upload failed: network down") [])))
              [] "cat" "images" "webp" eq_refl) as [reason Hreason].
  exists reason. split; [reflexivity|exact Hreason].
Defined.

(** X20 on an answer with one image and on an answer with an empty list. *)
Lemma generate_image_reads_the_answer_witness :
  (let W := sample_world 200 ""
              (JObj {[ "data" := JList [JObj {[ "b64_json" := JStr "QUJD" ]}] ]}) in
   generate_image_with_azure_openai default_config echo_lib W "a cat" "1024x1024"
     "png" []
   = (Ret (String.list_byte_of_string "QUJD"),
      [EvHttp (image_generation_call default_config "a cat" "1024x1024" "png")]))
  /\ (let W := sample_world 200 "" (JObj {[ "data" := JList [] ]}) in
      generate_image_with_azure_openai default_config echo_lib W "a cat" "1024x1024"
        "png" []
      = (Raise (PyExc "Exception"
                  "Azure OpenAI image generation failed: No image data returned from Azure OpenAI"),
         [EvHttp (image_generation_call default_config "a cat" "1024x1024" "png")])).
Proof.
  split; intros W.
  - apply (proj1 (generate_image_reads_the_answer default_config echo_lib W "a cat"
                    "1024x1024" "png" []
                    {| status_code := 200; text := "";
                       json_of := Ret (JObj {[ "data" :=
                         JList [JObj {[ "b64_json" := JStr "QUJD" ]}] ]}) |}
                    {[ "data" := JList [JObj {[ "b64_json" := JStr "QUJD" ]}] ]}
                    eq_refl ltac:(member) eq_refl ltac:(simpl; lia) eq_refl)
             {[ "b64_json" := JStr "QUJD" ]} [] "QUJD"); reflexivity.
  - apply (proj2 (generate_image_reads_the_answer default_config echo_lib W "a cat"
                    "1024x1024" "png" []
                    {| status_code := 200; text := "";
                       json_of := Ret (JObj {[ "data" := JList [] ]}) |}
                    {[ "data" := JList [] ]}
                    eq_refl ltac:(member) eq_refl ltac:(simpl; lia) eq_refl)).
    by right.
Defined.

(** X21 on a refused connection and on an accepted upload. *)
Lemma upload_to_azure_names_the_blob_witness :
  upload_to_azure default_config (failing_world (PyExc "ValueError" "bad string"))
    [x41] "my_cat" "images" "webp" []
  = (Raise (PyExc "Exception" "Azure Storage upload failed: bad string"), [])
  /\ upload_to_azure default_config (sample_world 200 "" JNull)
       [x41] "my_cat" "images" "webp" []
     = (Ret "https://blobs.example/images/my_cat_01234567.webp",
        [EvUpload "audio-files" "images/my_cat_01234567.webp" [x41] true]).
Proof.
  split.
  - apply (proj1 (upload_to_azure_names_the_blob default_config
                    (failing_world (PyExc "ValueError" "bad string"))
                    [x41] "my_cat" "images" "webp" [])
             (PyExc "ValueError" "bad string")).
    reflexivity.
  - destruct (proj2 (upload_to_azure_names_the_blob default_config
                       (sample_world 200 "" JNull) [x41] "my_cat" "images" "webp" [])
                eq_refl) as [Htrace Hurl].
    specialize (Hurl _ eq_refl).
    destruct (upload_to_azure default_config (sample_world 200 "" JNull)
                [x41] "my_cat" "images" "webp" []) as [o tr].
    simpl in Htrace, Hurl. by rewrite Htrace, Hurl.
Defined.

(** X22 on a provider that cannot be reached. *)
Lemma image_pipeline_is_all_or_nothing_witness :
  let W := failing_world (PyExc "ConnectError" "unreachable") in
  let e := PyExc "Exception" "Azure OpenAI image generation failed: unreachable" in
  let t1 := [EvHttp (image_generation_call default_config "a cat" "1024x1024" "png")] in
  generate_and_upload_image default_config sample_lib W "a cat" "My Cat" "1024x1024"
    "png" []
  = (Raise e, t1)
  /\ exists added, t1 = [] ++ added /\ Forall (fun ev => is_upload ev = false) added.
Proof.
  intros W e t1.
  apply (image_pipeline_is_all_or_nothing default_config sample_lib W "a cat" "My Cat"
           "1024x1024" "png" [] e t1).
  left. reflexivity.
Defined.

(** X23 on a PNG with an alpha channel, titled "My Cat". *)
Lemma image_pipeline_flattens_alpha_witness :
  let answer : gmap string json :=
    {[ "data" := JList [JObj {[ "b64_json" := JStr "QUJD" ]}] ]} in
  let W := rgba_world 200 "" (JObj answer) in
  generate_and_upload_image default_config echo_lib W "a cat" "My Cat" "1024x1536"
    "png" []
  = (Ret "https://blobs.example/images/my_cat_01234567.webp",
     [EvHttp (image_generation_call default_config "a cat" "1024x1536" "png");
      EvUpload "audio-files" "images/my_cat_01234567.webp"
        (String.list_byte_of_string "QUJD") true]).
Proof.
  intros answer W.
  apply (image_pipeline_flattens_alpha default_config echo_lib W "a cat" "My Cat"
           "1024x1536" "png" []
           {| status_code := 200; text := ""; json_of := Ret (JObj answer) |}
           answer {[ "b64_json" := JStr "QUJD" ]} [] "QUJD"
           (String.list_byte_of_string "QUJD")
           ("RGBA", String.list_byte_of_string "QUJD")
           ("RGB", String.list_byte_of_string "QUJD")
           (String.list_byte_of_string "QUJD")
           "https://blobs.example/images/my_cat_01234567.webp");
    try reflexivity.
  - member.
  - simpl. lia.
  - member.
Defined.

(** X24 on a provider that cannot be reached: the tool reports, it does not
    raise. *)
Lemma media_tools_never_raise_witness :
  let W := failing_world (PyExc "ConnectError" "unreachable") in
  generate_background_image_for_audio default_config sample_lib W "a cat" "My Cat" []
  = (Ret "Error: Azure OpenAI image generation failed: unreachable",
     [EvHttp (image_generation_call default_config "a cat" "1024x1536" "png")]).
Proof.
  intros W.
  apply (proj1 (proj2 (proj2 (proj2 (media_tools_never_raise default_config sample_lib
                                       W (sample_speech (Ret [])) "a cat" "My Cat"
                                       None None []))))
           (PyExc "Exception" "Azure OpenAI image generation failed: unreachable")).
  reflexivity.
Defined.

(** X25 on the format "PNG". *)
Lemma generate_image_from_text_refuses_format_witness :
  let W := sample_world 200 "" JNull in
  generate_image_from_text default_config sample_lib W "a cat" "My Cat"
    (Some "portrait") (Some "PNG") []
  = (Ret "Error: Invalid output format 'PNG'. Must be 'png' or 'jpg'", []).
Proof.
  intros W.
  apply (generate_image_from_text_refuses_format default_config sample_lib W "a cat"
           "My Cat" (Some "portrait") "PNG" []).
  not_member.
Defined.

(** X26 on the title "My Cat Photo". *)
Lemma file_name_is_normalised_witness :
  let filename := str_lower sample_lib (replace " " "_" "My Cat Photo") in
  filename = "my_cat_photo"
  /\ String.length filename = String.length "My Cat Photo"
  /\ no_char " " filename = true
  /\ no_upper_case filename = true.
Proof.
  split; [reflexivity|].
  apply (file_name_is_normalised sample_lib "My Cat Photo"). reflexivity.
Defined.

(** X27 on "1024x1536", with and without a final newline. *)
Lemma size_pattern_characterised_witness :
  re_match_size sample_lib "1024x1536" = true
  /\ re_match_size sample_lib ("1024x1536" +:+ nl) = true.
Proof.
  split.
  - apply (proj2 (size_pattern_characterised sample_lib "1024x1536" eq_refl)).
    exists "1024", "1536". repeat split; try done. by left.
  - apply (proj2 (size_pattern_characterised sample_lib ("1024x1536" +:+ nl) eq_refl)).
    exists "1024", "1536". repeat split; try done. by right.
Defined.

(** X29 on a failing synthesis and on a stream of two chunks. *)
Lemma audio_pipeline_witness :
  let W := sample_world 200 "" JNull in
  generate_and_upload_audio default_config sample_lib W
    (sample_speech (Raise (PyExc "ApiError" "quota exceeded"))) "Hello" "My Talk" []
  = (Raise (PyExc "Exception" "ElevenLabs audio generation failed: quota exceeded"), [])
  /\ snd (generate_and_upload_audio default_config sample_lib W
            (sample_speech (Ret [[x41]; [x42; x43]])) "Hello" "My Talk" [])
     = [EvUpload "audio-files" "audio/my_talk_01234567.mp3" [x41; x42; x43] true].
Proof.
  intros W. split.
  - apply (proj1 (audio_pipeline default_config sample_lib W
                    (sample_speech (Raise (PyExc "ApiError" "quota exceeded")))
                    "Hello" "My Talk" [])
             (PyExc "ApiError" "quota exceeded")).
    reflexivity.
  - apply (proj2 (audio_pipeline default_config sample_lib W
                    (sample_speech (Ret [[x41]; [x42; x43]])) "Hello" "My Talk" [])
             [[x41]; [x42; x43]]); reflexivity.
Defined.

(** X30 on the header "<b>Hi</b> there". *)
Lemma header_markup_is_removed_witness :
  strip_markup "<b>Hi</b> there" = "Hi there"
  /\ strip_markup "2 > 1" = "2 > 1".
Proof.
  split.
  - apply (proj1 header_markup_is_removed ["<b>"; "Hi"; "</b>"; " there"]).
    reflexivity.
  - apply (proj2 header_markup_is_removed "2 > 1"). reflexivity.
Defined.
